(** * dnsup: the address merge, the interface resolver and the two
      update dispatchers

    A shallow embedding of the two programs of the repository: the
    RFC 2136 updater (signed DNS UPDATE) and the Azure updater (one
    record-set upsert per host).  Both share the resolver
    ([chooseUnicast], [chooseFour], [chooseSix]) and the partial address
    ([IP], [UnmarshalYAML], [ApplyIPToMask], [Is4]).

    Addresses are Go byte slices: lists of [Z] with every element in
    [0, 255]; the nil slice is the empty list.  Runtime panics and
    [logger.Fatal] are explicit results. *)

From Stdlib Require Import ZArith Lia Ascii.
From stdpp Require Import base tactics option list strings relations.

Local Open Scope Z_scope.

(** ** Results of code that can panic or exit *)

Inductive result (A : Type) : Type :=
  | Ok (a : A)
  | Panic (msg : string)
  | Fatal (msg : string).
Arguments Ok {A} a.
Arguments Panic {A} msg.
Arguments Fatal {A} msg.

#[global] Instance result_ret : MRet result := fun _ a => Ok a.

#[global] Instance result_bind : MBind result := fun _ _ k r =>
  match r with
  | Ok a => k a
  | Panic m => Panic m
  | Fatal m => Fatal m
  end.

Definition is_Ok {A : Type} (r : result A) : bool :=
  match r with Ok _ => true | _ => false end.

(** ** The parts of Go's [net] package the programs call

    [IP] and [IPMask] are byte slices.  The functions follow the
    package's source: [To4], [To16], [Mask], [Equal], the address
    classes behind [IsGlobalUnicast], [CIDRMask] and [ParseCIDR]. *)

Module net.

Definition IP := list Z.
Definition IPMask := list Z.

Definition IPv4len : nat := 4.
Definition IPv6len : nat := 16.

Definition v4InV6Prefix : list Z := [0; 0; 0; 0; 0; 0; 0; 0; 0; 0; 255; 255].

Definition IPv4 (a b c d : Z) : IP := v4InV6Prefix ++ [a; b; c; d].

Definition IPv4bcast : IP := IPv4 255 255 255 255.
Definition IPv4zero : IP := IPv4 0 0 0 0.
Definition IPv6unspecified : IP := replicate 16 0.
Definition IPv6loopback : IP := replicate 15 0 ++ [1].

Definition bytesEqual (a b : list Z) : bool := bool_decide (a = b).

Definition isZeros (p : list Z) : bool := forallb (Z.eqb 0) p.

Definition allFF (b : list Z) : bool := forallb (Z.eqb 255) b.

(** [ip[k]] where the code has already checked the length. *)
Definition at_ (ip : list Z) (k : nat) : Z := ip !!! k.

Definition To4 (ip : IP) : IP :=
  if bool_decide (length ip = IPv4len) then ip
  else if bool_decide (length ip = IPv6len)
          && isZeros (take 10 ip)
          && (at_ ip 10 =? 255)
          && (at_ ip 11 =? 255)
       then take 4 (drop 12 ip)
       else [].

Definition To16 (ip : IP) : IP :=
  if bool_decide (length ip = IPv4len)
  then IPv4 (at_ ip 0) (at_ ip 1) (at_ ip 2) (at_ ip 3)
  else if bool_decide (length ip = IPv6len) then ip
  else [].

Definition Mask (ip : IP) (mask : IPMask) : IP :=
  let mask :=
    if bool_decide (length mask = IPv6len) && bool_decide (length ip = IPv4len)
       && allFF (take 12 mask)
    then drop 12 mask else mask in
  let ip :=
    if bool_decide (length mask = IPv4len) && bool_decide (length ip = IPv6len)
       && bytesEqual (take 12 ip) v4InV6Prefix
    then drop 12 ip else ip in
  if bool_decide (length ip = length mask)
  then zip_with Z.land ip mask
  else [].

Definition Equal (ip x : IP) : bool :=
  if bool_decide (length ip = length x) then bytesEqual ip x
  else if bool_decide (length ip = IPv4len) && bool_decide (length x = IPv6len)
  then bytesEqual (take 12 x) v4InV6Prefix && bytesEqual ip (drop 12 x)
  else if bool_decide (length ip = IPv6len) && bool_decide (length x = IPv4len)
  then bytesEqual (take 12 ip) v4InV6Prefix && bytesEqual (drop 12 ip) x
  else false.

Definition IsUnspecified (ip : IP) : bool :=
  Equal ip IPv4zero || Equal ip IPv6unspecified.

Definition IsLoopback (ip : IP) : bool :=
  match To4 ip with
  | [] => Equal ip IPv6loopback
  | ip4 => at_ ip4 0 =? 127
  end.

Definition IsMulticast (ip : IP) : bool :=
  match To4 ip with
  | [] => bool_decide (length ip = IPv6len) && (at_ ip 0 =? 255)
  | ip4 => Z.land (at_ ip4 0) 240 =? 224
  end.

Definition IsLinkLocalUnicast (ip : IP) : bool :=
  match To4 ip with
  | [] => bool_decide (length ip = IPv6len)
          && (at_ ip 0 =? 254) && (Z.land (at_ ip 1) 192 =? 128)
  | ip4 => (at_ ip4 0 =? 169) && (at_ ip4 1 =? 254)
  end.

Definition IsGlobalUnicast (ip : IP) : bool :=
  (bool_decide (length ip = IPv4len) || bool_decide (length ip = IPv6len))
  && negb (Equal ip IPv4bcast)
  && negb (IsUnspecified ip)
  && negb (IsLoopback ip)
  && negb (IsMulticast ip)
  && negb (IsLinkLocalUnicast ip).

(** [CIDRMask(ones, bits)]: [ones] one-bits followed by zeros. *)
Fixpoint CIDRMask_loop (l : nat) (n : Z) : IPMask :=
  match l with
  | O => []
  | S l' =>
      if 8 <=? n then 255 :: CIDRMask_loop l' (n - 8)
      else Z.lxor 255 (Z.shiftr 255 n) :: CIDRMask_loop l' 0
  end.

Definition CIDRMask (ones bits : Z) : IPMask :=
  if negb (bits =? 32) && negb (bits =? 128) then []
  else if (ones <? 0) || (bits <? ones) then []
  else CIDRMask_loop (Z.to_nat (bits / 8)) ones.

Record IPNet : Type := mkIPNet { IPNet_IP : IP; IPNet_Mask : IPMask }.

(** *** Parsing of address literals

    Go strings are byte strings; [code] is the byte of a character;
    [strDrop n s] is [s[n:]].  The loops of [dtoi], [xtoi], [parseIPv4]
    and [parseIPv6] recurse on the text or on the number of iterations
    left, which the Go loops bound by 4 and by 8. *)

Definition code (c : ascii) : Z := Z.of_N (N_of_ascii c).

Definition byte (n : Z) : Z := n mod 256.

Fixpoint strDrop (n : nat) (s : string) : string :=
  match n, s with
  | O, _ => s
  | S n', String _ s' => strDrop n' s'
  | S _, EmptyString => EmptyString
  end.

Definition charAt (s : string) (k : nat) : option ascii := String.get k s.

Definition big : Z := 16777215.

Fixpoint dtoi_loop (s : string) (n : Z) (i : nat) : Z * nat * bool :=
  let stop := if bool_decide (i = 0%nat) then (0, 0%nat, false) else (n, i, true) in
  match s with
  | String c s' =>
      if (code "0" <=? code c) && (code c <=? code "9") then
        let n := n * 10 + (code c - code "0") in
        if big <=? n then (big, i, false) else dtoi_loop s' n (S i)
      else stop
  | EmptyString => stop
  end.

(** Decimal to integer: the number, the characters consumed, success. *)
Definition dtoi (s : string) : Z * nat * bool := dtoi_loop s 0 0%nat.

Definition hexval (c : ascii) : option Z :=
  if (code "0" <=? code c) && (code c <=? code "9") then Some (code c - code "0")
  else if (code "a" <=? code c) && (code c <=? code "f") then Some (code c - code "a" + 10)
  else if (code "A" <=? code c) && (code c <=? code "F") then Some (code c - code "A" + 10)
  else None.

Fixpoint xtoi_loop (s : string) (n : Z) (i : nat) : Z * nat * bool :=
  let stop := if bool_decide (i = 0%nat) then (0, i, false) else (n, i, true) in
  match s with
  | String c s' =>
      match hexval c with
      | Some v =>
          let n := n * 16 + v in
          if big <=? n then (0, i, false) else xtoi_loop s' n (S i)
      | None => stop
      end
  | EmptyString => stop
  end.

(** Hexadecimal to integer. *)
Definition xtoi (s : string) : Z * nat * bool := xtoi_loop s 0 0%nat.

(** The loop of [parseIPv4] at octet [i], with [left = 4 - i]
    iterations to go.  [None] is the nil result. *)
Fixpoint parseIPv4_loop (left i : nat) (s : string) (p : list Z)
  : option (string * list Z) :=
  match left with
  | O => Some (s, p)
  | S left' =>
      if bool_decide (String.length s = 0%nat) then None
      else
        let after_dot :=
          if bool_decide (0 < i)%nat
          then match s with
               | String c s' => if bool_decide (c = "."%char) then Some s' else None
               | EmptyString => None
               end
          else Some s in
        match after_dot with
        | None => None
        | Some s =>
            let '(n, c, ok) := dtoi s in
            if negb ok || (255 <? n) then None
            else parseIPv4_loop left' (S i) (strDrop c s) (<[i := byte n]> p)
        end
  end.

(** Dotted decimal; octets with leading zeros are accepted, as in the Go
    releases the programs were written for (later releases reject them;
    nothing below depends on it). *)
Definition parseIPv4 (s : string) : IP :=
  match parseIPv4_loop 4 0 s (replicate 4 0) with
  | Some (s, p) =>
      if negb (bool_decide (String.length s = 0%nat)) then []
      else IPv4 (at_ p 0) (at_ p 1) (at_ p 2) (at_ p 3)
  | None => []
  end.

(** State of the loop of [parseIPv6] when it stops. *)
Record v6state : Type := mkV6 {
  v6_ip : list Z; v6_ellipsis : Z; v6_i : nat; v6_s : string }.

(** The loop [for i < IPv6len] of [parseIPv6].  Every iteration that
    continues adds 2 to [i], so [left = (16 - i) / 2] iterations remain
    and the loop condition fails exactly when [left] is 0. *)
Fixpoint parseIPv6_loop (left : nat) (ip : list Z) (ellipsis : Z) (i : nat)
    (s : string) : option v6state :=
  match left with
  | O => Some (mkV6 ip ellipsis i s)
  | S left' =>
      let '(n, c, ok) := xtoi s in
      if negb ok || (65535 <? n) then None
      else if bool_decide (c < String.length s)%nat
              && bool_decide (charAt s c = Some "."%char) then
        (* trailing dotted-decimal IPv4 *)
        if (ellipsis <? 0) && negb (bool_decide (i = 12%nat)) then None
        else if bool_decide (16 < i + 4)%nat then None
        else match parseIPv4 s with
             | [] => None
             | ip4 =>
                 let ip := <[i := at_ ip4 12]> ip in
                 let ip := <[S i := at_ ip4 13]> ip in
                 let ip := <[S (S i) := at_ ip4 14]> ip in
                 let ip := <[S (S (S i)) := at_ ip4 15]> ip in
                 Some (mkV6 ip ellipsis (i + 4) EmptyString)
             end
      else
        let ip := <[i := byte (Z.shiftr n 8)]> ip in
        let ip := <[S i := byte n]> ip in
        let i := (i + 2)%nat in
        let s := strDrop c s in
        if bool_decide (String.length s = 0%nat) then Some (mkV6 ip ellipsis i s)
        else
          match s with
          | String c0 s1 =>
              if negb (bool_decide (c0 = ":"%char))
                 || bool_decide (String.length s = 1%nat) then None
              else
                match s1 with
                | String c1 s2 =>
                    if bool_decide (c1 = ":"%char) then
                      if 0 <=? ellipsis then None
                      else if bool_decide (String.length s2 = 0%nat)
                           then Some (mkV6 ip (Z.of_nat i) i s2)
                           else parseIPv6_loop left' ip (Z.of_nat i) i s2
                    else parseIPv6_loop left' ip ellipsis i s1
                | EmptyString => None
                end
          | EmptyString => None
          end
  end.

(** The two copy loops that expand the ellipsis: first
    [for j := i-1; j >= ellipsis; j-- { ip[j+n] = ip[j] }], then
    [for j := ellipsis+n-1; j >= ellipsis; j-- { ip[j] = 0 }]. *)
Definition expandEllipsis (ip : list Z) (ellipsis i : nat) : list Z :=
  let n := (16 - i)%nat in
  let ip := foldl (fun ip j => <[(j + n)%nat := at_ ip j]> ip) ip
                  (reverse (seq ellipsis (i - ellipsis))) in
  foldl (fun ip j => <[j := 0]> ip) ip (reverse (seq ellipsis n)).

(** [parseIPv6] from its loop on: [ellipsis] is 0 after a leading
    ellipsis and -1 otherwise. *)
Definition parseIPv6_from (ellipsis : Z) (s : string) : IP :=
  match parseIPv6_loop 8 (replicate 16 0) ellipsis 0 s with
  | None => []
  | Some st =>
      if negb (bool_decide (String.length (v6_s st) = 0%nat)) then []
      else if bool_decide (v6_i st < 16)%nat then
        if v6_ellipsis st <? 0 then []
        else expandEllipsis (v6_ip st) (Z.to_nat (v6_ellipsis st)) (v6_i st)
      else if 0 <=? v6_ellipsis st then []
      else v6_ip st
  end.

Definition parseIPv6 (s : string) : IP :=
  let leading :=
    match s with
    | String c0 (String c1 s') =>
        if bool_decide (c0 = ":"%char) && bool_decide (c1 = ":"%char)
        then Some s' else None
    | _ => None
    end in
  match leading with
  | Some s' =>
      if bool_decide (String.length s' = 0%nat) then replicate 16 0
      else parseIPv6_from 0 s'
  | None => parseIPv6_from (-1) s
  end.

Fixpoint indexByte (s : string) (c : ascii) : option nat :=
  match s with
  | EmptyString => None
  | String c0 s' =>
      if bool_decide (c0 = c) then Some 0%nat else S <$> indexByte s' c
  end.

Definition strTake (n : nat) (s : string) : string := String.substring 0 n s.

(** [ParseCIDR]: the address of the literal, in 16-byte form, and the
    network (the address masked, and the mask of the prefix length). *)
Definition ParseCIDR (s : string) : option (IP * IPNet) :=
  match indexByte s "/"%char with
  | None => None
  | Some i =>
      let addr := strTake i s in
      let mask := strDrop (S i) s in
      let '(iplen, ip) :=
        match parseIPv4 addr with
        | [] => (IPv6len, parseIPv6 addr)
        | ip => (IPv4len, ip)
        end in
      let '(n, i, ok) := dtoi mask in
      if bool_decide (ip = []) || negb ok
         || negb (bool_decide (i = String.length mask))
         || (n <? 0) || (8 * Z.of_nat iplen <? n)
      then None
      else
        let m := CIDRMask n (8 * Z.of_nat iplen) in
        Some (ip, mkIPNet (Mask ip m) m)
  end.

End net.

(** An element of an interface's address list ([net.Addr]): the
    resolver keeps the [*net.IPNet] ones. *)
Inductive Addr : Type :=
  | Addr_IPNet (n : net.IPNet)
  | Addr_IPAddr (ip : net.IP) (zone : string)
  | Addr_other (network text : string).

(** ** The resolver *)

Fixpoint chooseUnicast (a : list Addr) : list net.IPNet :=
  match a with
  | [] => []
  | addr :: rest =>
      match addr with
      | Addr_IPNet ipnet =>
          if negb (net.IsGlobalUnicast (net.IPNet_IP ipnet))
          then chooseUnicast rest
          else ipnet :: chooseUnicast rest
      | _ => chooseUnicast rest
      end
  end.

Fixpoint chooseFour (l : list net.IPNet) : net.IP :=
  match l with
  | [] => []
  | inet :: rest =>
      let v4 := net.To4 (net.IPNet_IP inet) in
      if negb (bool_decide (v4 = [])) then v4 else chooseFour rest
  end.

Fixpoint chooseSix (l : list net.IPNet) : net.IP :=
  match l with
  | [] => []
  | inet :: rest =>
      let v4 := net.To4 (net.IPNet_IP inet) in
      if bool_decide (v4 = [])
      then net.Mask (net.IPNet_IP inet) (net.IPNet_Mask inet)
      else chooseSix rest
  end.

(** ** The partial address *)

Record IP : Type := mkIP { ip : net.IP; mask : net.IPMask }.

(** [unmarshal] is what the YAML decoder puts into [raw]: the scalar of
    the host entry, or nothing when decoding fails ([raw] keeps its
    initial empty string, the error of [unmarshal] is dropped).  [None]
    is the error of [ParseCIDR], returned as it is. *)
Definition UnmarshalYAML (unmarshal : option string) : option IP :=
  let raw := default "" unmarshal in
  match net.ParseCIDR raw with
  | None => None
  | Some (ip, ipnet) => Some (mkIP ip (net.IPNet_Mask ipnet))
  end.

Definition index_out_of_range : string := "runtime error: index out of range".

(** The loop [for idx, val := range ourIp { newIp[idx] = newIp[idx] | val }];
    indexing [newIp] past its length panics. *)
Fixpoint orInto (idx : nat) (ourIp newIp : list Z) : result (list Z) :=
  match ourIp with
  | [] => Ok newIp
  | val :: rest =>
      match newIp !! idx with
      | Some b => orInto (S idx) rest (<[idx := Z.lor b val]> newIp)
      | None => Panic index_out_of_range
      end
  end.

Definition ApplyIPToMask (i : IP) (ip_ : net.IP) : result net.IP :=
  let newIp := net.To16 (net.Mask ip_ (mask i)) in
  let ourIp := net.To16 (ip i) in
  orInto 0 ourIp newIp.

Definition Is4 (i : IP) : bool := negb (bool_decide (net.To4 (ip i) = [])).

(** ** The interface loop of [main]

    [Addrs] is the result of [iface.Addrs()]: [None] when it returns an
    error.  [four] and [sixPrefix] start as nil. *)

Record Interface : Type := mkInterface {
  Name : string;
  Addrs : option (list Addr) }.

Definition resolveStep (fourFrom sixFrom : string)
    (acc : net.IP * net.IP) (iface : Interface) : net.IP * net.IP :=
  match Addrs iface with
  | None => acc (* continue *)
  | Some addrs =>
      let four :=
        if bool_decide (Name iface = fourFrom)
        then chooseFour (chooseUnicast addrs) else fst acc in
      let sixPrefix :=
        if bool_decide (Name iface = sixFrom)
        then chooseSix (chooseUnicast addrs) else snd acc in
      (four, sixPrefix)
  end.

Definition resolve (fourFrom sixFrom : string) (ifs : list Interface)
  : net.IP * net.IP :=
  foldl (resolveStep fourFrom sixFrom) ([], []) ifs.

(** ** What [main] reads from its environment *)

Inductive loaded (C : Type) : Type :=
  | ReadFailed (err : string)    (* ioutil.ReadFile *)
  | ParseFailed (err : string)   (* yaml.Unmarshal *)
  | Loaded (config : C).
Arguments ReadFailed {C} err.
Arguments ParseFailed {C} err.
Arguments Loaded {C} config.

(** ** The parts of [github.com/miekg/dns] the signed update uses *)

Module dns.

Definition TypeA : Z := 1.
Definition TypeSOA : Z := 6.
Definition TypeTXT : Z := 16.
Definition TypeAAAA : Z := 28.
Definition TypeTSIG : Z := 250.
Definition TypeANY : Z := 255.
Definition ClassINET : Z := 1.
Definition ClassANY : Z := 255.
Definition OpcodeUpdate : Z := 5.
Definition HmacMD5 : string := "hmac-md5.sig-alg.reg.int.".

Fixpoint lastChar (s : string) : option ascii :=
  match s with
  | EmptyString => None
  | String c EmptyString => Some c
  | String _ s' => lastChar s'
  end.

Definition IsFqdn (s : string) : bool :=
  bool_decide (lastChar s = Some "."%char).

Definition Fqdn (s : string) : string :=
  if IsFqdn s then s else s +:+ ".".

Record RR_Header : Type := mkHeader {
  Hdr_Name : string;
  Rrtype : Z;
  Class : Z;
  Ttl : Z;
  Rdlength : Z }.

Inductive RR : Type :=
  | ANY (Hdr : RR_Header)
  | A (Hdr : RR_Header) (a : net.IP)
  | AAAA (Hdr : RR_Header) (aaaa : net.IP)
  | TXT (Hdr : RR_Header) (Txt : list string)
  | TSIG (Hdr : RR_Header) (Algorithm : string) (Fudge : Z) (TimeSigned : Z).

Definition Hdr (r : RR) : RR_Header :=
  match r with
  | ANY h | A h _ | AAAA h _ | TXT h _ | TSIG h _ _ _ => h
  end.

Record Question : Type := mkQuestion {
  Q_Name : string; Qtype : Z; Qclass : Z }.

Record Msg : Type := mkMsg {
  Opcode : Z;
  Response : bool;
  Question_ : list Question;
  Ns : list RR;
  Extra : list RR }.

Definition emptyMsg : Msg := mkMsg 0 false [] [] [].

Definition SetUpdate (m : Msg) (z : string) : Msg :=
  mkMsg OpcodeUpdate false [mkQuestion z TypeSOA ClassINET] (Ns m) (Extra m).

Definition setNs (m : Msg) (ns : list RR) : Msg :=
  mkMsg (Opcode m) (Response m) (Question_ m) ns (Extra m).

Definition SetTsig (m : Msg) (z algo : string) (fudge timesigned : Z) : Msg :=
  let t := TSIG (mkHeader z TypeTSIG ClassANY 0 0) algo fudge timesigned in
  mkMsg (Opcode m) (Response m) (Question_ m) (Ns m) (Extra m ++ [t]).

Record Client : Type := mkClient {
  SingleInflight : bool;
  TsigSecret : list (string * string) }.

End dns.

Definition joinDomain (part fqdn : string) : string :=
  if bool_decide (part = "@") then dns.Fqdn fqdn
  else dns.Fqdn (dns.Fqdn part +:+ fqdn).

(** ** Effects of a run

    A run leaves a trace of what it wrote to the log and what it sent,
    and ends normally, by [logger.Fatal] or by a panic. *)

Inductive event : Type :=
  | LogUpdating (name family : string) (finalIp : net.IP)
  | LogReply (reply : option dns.Msg)
  | LogFatal (msg err : string)
  | StderrFatal (msg err : string)
  | Exchanged (c : dns.Client) (m : dns.Msg) (server : string).

Definition prog (A : Type) : Type := list event -> list event * result A.

#[global] Instance prog_ret : MRet prog := fun _ a t => (t, Ok a).

#[global] Instance prog_bind : MBind prog := fun _ _ k m t =>
  match m t with
  | (t', Ok a) => k a t'
  | (t', Panic msg) => (t', Panic msg)
  | (t', Fatal msg) => (t', Fatal msg)
  end.

Definition emit (e : event) : prog unit := fun t => (t ++ [e], Ok tt).

Definition lift {A : Type} (r : result A) : prog A := fun t => (t, r).

(** [logger.Fatal(msg, err)]: write the line, then exit. *)
Definition fatal {A : Type} (msg err : string) : prog A :=
  fun t => (t ++ [LogFatal msg err], Fatal msg).

(** [log.Fatal(msg, err)]: the same through the standard logger, which
    writes to standard error and not to the log file. *)
Definition stderrFatal {A : Type} (msg err : string) : prog A :=
  fun t => (t ++ [StderrFatal msg err], Fatal msg).

Definition panic {A : Type} (err : string) : prog A := fun t => (t, Panic err).

Definition run {A : Type} (m : prog A) : list event * result A := m [].

(** ** The RFC 2136 updater *)

Module rfc2136.

(** [Hosts] is a Go map; the list holds its entries in the order the
    [range] loop of this run visits them. *)
Record Config : Type := mkConfig {
  Server : string;
  Zone : string;
  Key : string;
  TsigSecrets : list (string * string);
  Hosts : list (string * IP);
  Ttl : Z }.

Record Env : Type := mkEnv {
  fourFrom : string;
  sixFrom : string;
  logCreate : option string;                      (* error of os.Create *)
  config_load : loaded Config;
  interfaces : list Interface + string;           (* net.Interfaces() *)
  now_string : string;                            (* time.Now().String() *)
  now_unix : Z;                                   (* time.Now().UTC().Unix() *)
  exchange : dns.Client -> dns.Msg -> string -> option dns.Msg * option string }.

(** The loop over [config.Hosts]. *)
Fixpoint hostLoop (config : Config) (four sixPrefix : net.IP)
    (hosts : list (string * IP)) (insertions : list dns.RR)
  : prog (list dns.RR) :=
  match hosts with
  | [] => mret insertions
  | (host, ip) :: rest =>
      let fqdn := joinDomain host (Zone config) in
      let insertions :=
        insertions ++ [dns.ANY (dns.mkHeader fqdn dns.TypeANY dns.ClassANY 0 0)] in
      if Is4 ip then
        finalIp ← lift (ApplyIPToMask ip four);
        _ ← emit (LogUpdating fqdn "IPv4" finalIp);
        hostLoop config four sixPrefix rest
          (insertions ++ [dns.A (dns.mkHeader fqdn dns.TypeA dns.ClassINET (Ttl config) 0) finalIp])
      else
        finalIp ← lift (ApplyIPToMask ip sixPrefix);
        _ ← emit (LogUpdating fqdn "IPv6" finalIp);
        hostLoop config four sixPrefix rest
          (insertions ++ [dns.AAAA (dns.mkHeader fqdn dns.TypeAAAA dns.ClassINET (Ttl config) 0) finalIp])
  end.

Definition buildUpdate (config : Config) (insertions : list dns.RR)
    (now_string : string) (now_unix : Z) : dns.Msg :=
  let insertions :=
    insertions ++ [dns.TXT (dns.mkHeader (dns.Fqdn (Zone config)) dns.TypeTXT
                                    dns.ClassINET (Ttl config) 0) [now_string]] in
  let updateMsg := dns.SetUpdate dns.emptyMsg (dns.Fqdn (Zone config)) in
  let updateMsg := dns.setNs updateMsg insertions in
  dns.SetTsig updateMsg (Key config) dns.HmacMD5 300 now_unix.

Definition main (e : Env) : prog unit :=
  _ ← match logCreate e with
      | Some err => panic err
      | None => mret tt
      end;
  config ← match config_load e with
           | ReadFailed err => fatal "Failed to read config file:" err
           | ParseFailed err => fatal "Failed to parse config file:" err
           | Loaded config => mret config
           end;
  ifs ← match interfaces e with
        | inr err => fatal "Failed to get net interfaces:" err
        | inl ifs => mret ifs
        end;
  let '(four, sixPrefix) := resolve (fourFrom e) (sixFrom e) ifs in
  let c := dns.mkClient true (TsigSecrets config) in
  insertions ← hostLoop config four sixPrefix (Hosts config) [];
  let updateMsg := buildUpdate config insertions (now_string e) (now_unix e) in
  _ ← emit (Exchanged c updateMsg (Server config));
  let '(reply, err) := exchange e c updateMsg (Server config) in
  match err with
  | Some err =>
      _ ← emit (LogReply reply);
      fatal "Failed to update DNS sever:" err
  | None => mret tt
  end.

End rfc2136.

(** ** The Azure updater *)

Module azure.

Record AzureConfig : Type := mkAzureConfig {
  ClientID : string;
  ClientSecret : string;
  TenantID : string;
  SubscriptionID : string;
  ResourceGroup : string }.

Record Config : Type := mkConfig {
  AzureConfig_ : AzureConfig;
  Zone : string;
  Hosts : list (string * IP);
  Ttl : Z }.

(** The arguments of one [dnsClient.CreateOrUpdate] call.  [req_addr] is
    the address whose text ([ip.String()]) the record carries. *)
Record Request : Type := mkRequest {
  req_resourceGroup : string;
  req_zone : string;
  req_host : string;
  req_recordType : string;
  req_TTL : Z;
  req_addr : net.IP }.

(** What [SetARecord] / [SetAAAARecord] is called with. *)
Record submission : Type := mkSubmission {
  sub_host : string;
  sub_recordType : string;
  sub_ip : net.IP }.

Record azureDnsUpdater : Type := mkUpdater {
  resourceGroup : string;
  zone : string }.

Definition newAzureDnsUpdater (resourceGroup zone : string) : azureDnsUpdater :=
  mkUpdater resourceGroup zone.

(** The request the goroutine of [SetARecord] / [SetAAAARecord] sends. *)
Definition request (a : azureDnsUpdater) (s : submission) : Request :=
  mkRequest (resourceGroup a) (zone a) (sub_host s) (sub_recordType s)
            300 (sub_ip s).

(** One iteration of the loop over [config.Hosts], up to the call of
    [SetARecord] or [SetAAAARecord]. *)
Definition submit (four sixPrefix : net.IP) (h : string * IP) : result submission :=
  let '(host, ip) := h in
  if Is4 ip then
    finalIp ← ApplyIPToMask ip four;
    mret (mkSubmission host "A" finalIp)
  else
    finalIp ← ApplyIPToMask ip sixPrefix;
    mret (mkSubmission host "AAAA" finalIp).

Definition family (s : submission) : string :=
  if bool_decide (sub_recordType s = "A") then "IPv4" else "IPv6".

(** *** Goroutines and the wait group

    The main goroutine is at the head of the host loop ([MLoop]), inside
    [Set*Record] before [wg.Add(1)] ([MAdd]) or before the [go]
    statement ([MGo]), blocked in [updater.Wait()] ([MWait]), or gone.
    A spawned goroutine is before its [CreateOrUpdate] call ([GStart]),
    has the call's error in hand ([GCalled]), is before [wg.Done()]
    ([GBeforeDone]) or has returned ([GExited]). *)

Inductive mainpc : Type :=
  | MLoop (hosts : list (string * IP))
  | MAdd (s : submission) (hosts : list (string * IP))
  | MGo (s : submission) (hosts : list (string * IP))
  | MWait
  | MExited
  | MPanicked (msg : string).

Inductive gpc : Type :=
  | GStart
  | GCalled (err : option string)
  | GBeforeDone
  | GExited.

Record goroutine : Type := mkGoroutine { g_sub : submission; g_pc : gpc }.

Inductive aevent : Type :=
  | AUpdating (host family : string) (finalIp : net.IP)
  | ARequest (r : Request)
  | AError (host err : string).

Record state : Type := mkState {
  pc : mainpc;
  pool : list goroutine;
  wg : Z;
  trace : list aevent }.

Definition init (hosts : list (string * IP)) : state :=
  mkState (MLoop hosts) [] 0 [].

Definition alive (s : state) : bool :=
  match pc s with
  | MExited | MPanicked _ => false
  | _ => true
  end.

Section Run.

(** [CreateOrUpdate] as seen by the updater: the error it returns, if
    any.  The call is assumed to return. *)
Variable client : Request -> option string.
Variable updater : azureDnsUpdater.
Variables four sixPrefix : net.IP.

Inductive step : state -> state -> Prop :=
  | step_loop_ok h hosts sub pool wg trace :
      submit four sixPrefix h = Ok sub ->
      step (mkState (MLoop (h :: hosts)) pool wg trace)
           (mkState (MAdd sub hosts) pool wg
              (trace ++ [AUpdating (sub_host sub) (family sub) (sub_ip sub)]))
  | step_loop_panic h hosts msg pool wg trace :
      submit four sixPrefix h = Panic msg ->
      step (mkState (MLoop (h :: hosts)) pool wg trace)
           (mkState (MPanicked msg) pool wg trace)
  | step_add sub hosts pool wg trace :
      step (mkState (MAdd sub hosts) pool wg trace)
           (mkState (MGo sub hosts) pool (wg + 1) trace)
  | step_go sub hosts pool wg trace :
      step (mkState (MGo sub hosts) pool wg trace)
           (mkState (MLoop hosts) (pool ++ [mkGoroutine sub GStart]) wg trace)
  | step_loop_end pool wg trace :
      step (mkState (MLoop []) pool wg trace)
           (mkState MWait pool wg trace)
  | step_wait pool trace :
      (* wg.Wait() returns when the counter is zero; main then returns *)
      step (mkState MWait pool 0 trace)
           (mkState MExited pool 0 trace)
  | step_call pc l1 sub l2 wg trace :
      alive (mkState pc (l1 ++ mkGoroutine sub GStart :: l2) wg trace) = true ->
      step (mkState pc (l1 ++ mkGoroutine sub GStart :: l2) wg trace)
           (mkState pc (l1 ++ mkGoroutine sub (GCalled (client (request updater sub))) :: l2)
              wg (trace ++ [ARequest (request updater sub)]))
  | step_err pc l1 sub err l2 wg trace :
      alive (mkState pc (l1 ++ mkGoroutine sub (GCalled (Some err)) :: l2) wg trace) = true ->
      step (mkState pc (l1 ++ mkGoroutine sub (GCalled (Some err)) :: l2) wg trace)
           (mkState pc (l1 ++ mkGoroutine sub GBeforeDone :: l2) wg
              (trace ++ [AError (sub_host sub) err]))
  | step_noerr pc l1 sub l2 wg trace :
      alive (mkState pc (l1 ++ mkGoroutine sub (GCalled None) :: l2) wg trace) = true ->
      step (mkState pc (l1 ++ mkGoroutine sub (GCalled None) :: l2) wg trace)
           (mkState pc (l1 ++ mkGoroutine sub GBeforeDone :: l2) wg trace)
  | step_done pc l1 sub l2 wg trace :
      alive (mkState pc (l1 ++ mkGoroutine sub GBeforeDone :: l2) wg trace) = true ->
      0 < wg ->
      step (mkState pc (l1 ++ mkGoroutine sub GBeforeDone :: l2) wg trace)
           (mkState pc (l1 ++ mkGoroutine sub GExited :: l2) (wg - 1) trace)
  | step_done_negative pc l1 sub l2 wg trace :
      (* wg.Done() on a zero counter panics *)
      alive (mkState pc (l1 ++ mkGoroutine sub GBeforeDone :: l2) wg trace) = true ->
      wg <= 0 ->
      step (mkState pc (l1 ++ mkGoroutine sub GBeforeDone :: l2) wg trace)
           (mkState (MPanicked "sync: negative WaitGroup counter")
              (l1 ++ mkGoroutine sub GExited :: l2) (wg - 1) trace).

End Run.

(** *** [main] up to the host loop *)

Record Env : Type := mkEnv {
  fourFrom : string;
  sixFrom : string;
  logCreate : option string;                      (* error of os.Create *)
  config_load : loaded Config;
  interfaces : list Interface + string;           (* net.Interfaces() *)
  authorizer : option string;                     (* error of GetAuthorizer() *)
  client : Request -> option string }.

(** What [main] holds when it enters the host loop. *)
Record started : Type := mkStarted {
  st_updater : azureDnsUpdater;
  st_four : net.IP;
  st_sixPrefix : net.IP;
  st_hosts : list (string * IP) }.

Definition start (e : Env) : prog started :=
  _ ← match logCreate e with
      | Some err => panic err
      | None => mret tt
      end;
  config ← match config_load e with
           | ReadFailed err => fatal "Failed to read config file:" err
           | ParseFailed err => fatal "Failed to parse config file:" err
           | Loaded config => mret config
           end;
  ifs ← match interfaces e with
        | inr err => fatal "Failed to get net interfaces:" err
        | inl ifs => mret ifs
        end;
  let '(four, sixPrefix) := resolve (fourFrom e) (sixFrom e) ifs in
  _ ← match authorizer e with
      | Some err => stderrFatal "Failed to authenticate to Azure: " err
      | None => mret tt
      end;
  let updater :=
    newAzureDnsUpdater (ResourceGroup (AzureConfig_ config)) (Zone config) in
  mret (mkStarted updater four sixPrefix (Hosts config)).

End azure.

(** ** Definitions used to state the properties *)

(** A mask in 16-byte form: a 4-byte mask covers the last four bytes of
    the IPv4-mapped form and leaves the mapping prefix alone. *)
Definition mask16 (m : net.IPMask) : list Z :=
  if bool_decide (length m = net.IPv4len) then replicate 12 255 ++ m else m.

(** The merge in closed form: [(discovered & mask) | base], byte by
    byte over the 16-byte forms. *)
Definition merged (discovered : net.IP) (p : IP) : list Z :=
  zip_with Z.lor (zip_with Z.land (net.To16 discovered) (mask16 (mask p)))
           (net.To16 (ip p)).

(** The merge as the specification words it:
    [(discovered & ~mask) | baseBits] over the 16-byte forms. *)
Definition merge_as_specified (discovered : net.IP) (p : IP) : list Z :=
  zip_with Z.lor
    (zip_with Z.land (net.To16 discovered) (Z.lxor 255 <$> mask16 (mask p)))
    (net.To16 (ip p)).

(** Bit [k] of byte [idx] of an address. *)
Definition bit (a : list Z) (idx : nat) (k : Z) : bool := Z.testbit (a !!! idx) k.

(** An address of an interface that the resolver keeps. *)
Definition kept (x : Addr) : option net.IPNet :=
  match x with
  | Addr_IPNet n => if net.IsGlobalUnicast (net.IPNet_IP n) then Some n else None
  | _ => None
  end.

Definition reducesTo4 (n : net.IPNet) : Prop := net.To4 (net.IPNet_IP n) <> [].

(** The [Exchanged] events of a trace. *)
Definition exchanges (t : list event) : list (dns.Client * dns.Msg * string) :=
  omap (fun e => match e with Exchanged c m s => Some (c, m, s) | _ => None end) t.

(** The records one host contributes to the update. *)
Definition hostRecords (config : rfc2136.Config) (host : string) (p : IP)
    (finalIp : net.IP) : list dns.RR :=
  let fqdn := joinDomain host (rfc2136.Zone config) in
  [dns.ANY (dns.mkHeader fqdn dns.TypeANY dns.ClassANY 0 0);
   if Is4 p
   then dns.A (dns.mkHeader fqdn dns.TypeA dns.ClassINET (rfc2136.Ttl config) 0) finalIp
   else dns.AAAA (dns.mkHeader fqdn dns.TypeAAAA dns.ClassINET (rfc2136.Ttl config) 0) finalIp].

(** The base address the family of a partial address needs. *)
Definition baseFor (four sixPrefix : net.IP) (p : IP) : net.IP :=
  if Is4 p then four else sixPrefix.

(** A parsed partial address: 16-byte base, and a mask of 4 bytes on an
    IPv4-mapped base or of 16 bytes. *)
Definition wf_partial (p : IP) : Prop :=
  length (ip p) = 16%nat /\
  ((length (mask p) = 4%nat /\ take 12 (ip p) = net.v4InV6Prefix)
   \/ length (mask p) = 16%nat).

(** Parse a host entry and merge it with a discovered address. *)
Definition mergeLiteral (raw : string) (discovered : net.IP)
  : option (result net.IP) :=
  p ← UnmarshalYAML (Some raw);
  Some (ApplyIPToMask p discovered).

(** The address text of a CIDR literal, parsed as [ParseCIDR] parses it,
    with nothing masked off. *)
Definition literalAddress (raw : string) : net.IP :=
  match net.indexByte raw "/"%char with
  | None => []
  | Some i =>
      match net.parseIPv4 (net.strTake i raw) with
      | [] => net.parseIPv6 (net.strTake i raw)
      | a => a
      end
  end.

(** An interface whose addresses cannot be enumerated, or that has none. *)
Definition unusable (iface : Interface) : Prop :=
  Addrs iface = None \/ Addrs iface = Some [].

(** The merge of each host succeeds and gives [finals], in order. *)
Definition mergesTo (four sixPrefix : net.IP) (hosts : list (string * IP))
    (finals : list net.IP) : Prop :=
  Forall2 (fun h f => ApplyIPToMask h.2 (baseFor four sixPrefix h.2) = Ok f)
          hosts finals.

(** The records of all hosts, in the order of the loop. *)
Definition insertionsFor (config : rfc2136.Config) (hosts : list (string * IP))
    (finals : list net.IP) : list dns.RR :=
  concat (zip_with (fun h f => hostRecords config h.1 h.2 f) hosts finals).

(** The log lines of the host loop. *)
Definition hostLogs (config : rfc2136.Config) (hosts : list (string * IP))
    (finals : list net.IP) : list event :=
  zip_with (fun h f =>
              LogUpdating (joinDomain h.1 (rfc2136.Zone config))
                          (if Is4 h.2 then "IPv4" else "IPv6") f)
           hosts finals.

(** The TXT record at the zone apex that closes the update. *)
Definition apexTXT (config : rfc2136.Config) (now_string : string) : dns.RR :=
  dns.TXT (dns.mkHeader (dns.Fqdn (rfc2136.Zone config)) dns.TypeTXT dns.ClassINET
                        (rfc2136.Ttl config) 0) [now_string].

(** What the run does after the exchange. *)
Definition afterExchange (answer : option dns.Msg * option string)
  : list event * result unit :=
  match answer with
  | (reply, Some err) =>
      ([LogReply reply; LogFatal "Failed to update DNS sever:" err],
       Fatal "Failed to update DNS sever:")
  | (_, None) => ([], Ok tt)
  end.

(** ** A run on the scenario of the README

    [eth0] carries 198.100.123.139/24 and [eth1] carries
    2001:470:1f0e:83f::2/64; the zone apex follows the IPv4 address and
    [host1] takes the IPv6 prefix.  The server does not answer. *)

Definition exampleApex : IP := mkIP (net.IPv4 0 0 0 0) [255; 255; 255; 255].

Definition exampleHost1 : IP :=
  mkIP [0; 0; 0; 0; 0; 0; 0; 0; 18; 52; 18; 52; 18; 52; 18; 52]
       [255; 255; 255; 255; 255; 255; 255; 255; 0; 0; 0; 0; 0; 0; 0; 0].

Definition exampleConfig : rfc2136.Config :=
  rfc2136.mkConfig "192.0.2.1:53" "fully.qualified.update.zone." "update.key."
    [("update.key.", "update.secret.")]
    [("host1", exampleHost1); ("@", exampleApex)]
    300.

Definition exampleInterfaces : list Interface :=
  [mkInterface "lo"
     (Some [Addr_IPNet (net.mkIPNet (net.IPv4 127 0 0 1) [255; 0; 0; 0])]);
   mkInterface "eth0"
     (Some [Addr_IPNet (net.mkIPNet (net.IPv4 198 100 123 139) [255; 255; 255; 0]);
            Addr_IPNet (net.mkIPNet
              [254; 128; 0; 0; 0; 0; 0; 0; 0; 0; 0; 0; 0; 0; 0; 1]
              [255; 255; 255; 255; 255; 255; 255; 255; 0; 0; 0; 0; 0; 0; 0; 0])]);
   mkInterface "eth1"
     (Some [Addr_IPNet (net.mkIPNet
              [32; 1; 4; 112; 31; 14; 8; 63; 0; 0; 0; 0; 0; 0; 0; 2]
              [255; 255; 255; 255; 255; 255; 255; 255; 0; 0; 0; 0; 0; 0; 0; 0])])].

Definition exampleFinals : list net.IP :=
  [[32; 1; 4; 112; 31; 14; 8; 63; 18; 52; 18; 52; 18; 52; 18; 52];
   net.IPv4 198 100 123 139].

Definition exampleEnv : rfc2136.Env :=
  rfc2136.mkEnv "eth0" "eth1" None (Loaded exampleConfig) (inl exampleInterfaces)
    "2015-06-01 12:00:00 +0000 UTC" 1433160000
    (fun _ _ _ => (None, Some "i/o timeout")).

(** ** Definitions for the runs of the Azure updater *)

(** Every host of the loop reaches its [Set*Record] call, with these
    submissions. *)
Definition submitsTo (four sixPrefix : net.IP) (hosts : list (string * IP))
    (subs : list azure.submission) : Prop :=
  Forall2 (fun h sub => azure.submit four sixPrefix h = Ok sub) hosts subs.

(** Steps a goroutine still has to take. *)
Definition weight (g : azure.goroutine) : nat :=
  match azure.g_pc g with
  | azure.GStart => 3
  | azure.GCalled _ => 2
  | azure.GBeforeDone => 1
  | azure.GExited => 0
  end.

(** 1 for a goroutine that has not called [wg.Done()] yet. *)
Definition running (g : azure.goroutine) : nat :=
  match azure.g_pc g with
  | azure.GExited => 0
  | _ => 1
  end.

(** Steps the main goroutine still has to take, and to cause by the
    goroutines it will start: six for each host left (three of its own,
    three of the new goroutine), the end of the loop and the wait. *)
Definition mainWeight (pc : azure.mainpc) : nat :=
  match pc with
  | azure.MLoop hosts => 6 * length hosts + 2
  | azure.MAdd _ hosts => 6 * length hosts + 7
  | azure.MGo _ hosts => 6 * length hosts + 6
  | azure.MWait => 1
  | azure.MExited => 0
  | azure.MPanicked _ => 0
  end.

Definition measure (s : azure.state) : nat :=
  mainWeight (azure.pc s) + sum_list (weight <$> azure.pool s).

(** The requests sent and the failures logged, as the trace has them. *)
Definition requestsOf (t : list azure.aevent) : list azure.Request :=
  omap (fun e => match e with azure.ARequest r => Some r | _ => None end) t.

Definition errorsOf (t : list azure.aevent) : list (string * string) :=
  omap (fun e => match e with azure.AError h err => Some (h, err) | _ => None end) t.

(** The failure of a submission, if its request fails. *)
Definition failure (client : azure.Request -> option string)
    (updater : azure.azureDnsUpdater) (sub : azure.submission)
  : option (string * string) :=
  match client (azure.request updater sub) with
  | Some err => Some (azure.sub_host sub, err)
  | None => None
  end.

(** The request a goroutine has sent so far, and the failure it has
    logged so far. *)
Definition sentBy (updater : azure.azureDnsUpdater) (g : azure.goroutine)
  : option azure.Request :=
  match azure.g_pc g with
  | azure.GStart => None
  | _ => Some (azure.request updater (azure.g_sub g))
  end.

Definition loggedBy (client : azure.Request -> option string)
    (updater : azure.azureDnsUpdater) (g : azure.goroutine)
  : option (string * string) :=
  match azure.g_pc g with
  | azure.GBeforeDone | azure.GExited => failure client updater (azure.g_sub g)
  | _ => None
  end.

(** The submissions the main goroutine has still to start. *)
Definition ahead (four sixPrefix : net.IP) (pc : azure.mainpc)
    (rest : list azure.submission) : Prop :=
  match pc with
  | azure.MLoop hosts => submitsTo four sixPrefix hosts rest
  | azure.MAdd sub hosts | azure.MGo sub hosts =>
      exists rest', rest = sub :: rest' /\ submitsTo four sixPrefix hosts rest'
  | azure.MWait | azure.MExited => rest = []
  | azure.MPanicked _ => False
  end.

(** What holds of every state a run reaches: the goroutines started and
    the submissions ahead make up the batch; the counter of the wait
    group is the number of goroutines that have not called [Done], plus
    one between [Add] and [go]; an error in hand is the one the client
    returned; the trace holds the requests sent and the failures
    logged; the counter is zero once main has returned. *)
Definition invariant (client : azure.Request -> option string)
    (updater : azure.azureDnsUpdater) (four sixPrefix : net.IP)
    (subs : list azure.submission) (s : azure.state) : Prop :=
  (exists rest,
     ahead four sixPrefix (azure.pc s) rest /\
     (azure.g_sub <$> azure.pool s) ++ rest = subs) /\
  azure.wg s
  = Z.of_nat (sum_list (running <$> azure.pool s))
    + (match azure.pc s with azure.MGo _ _ => 1 | _ => 0 end) /\
  Forall (fun g => forall err, azure.g_pc g = azure.GCalled err ->
                   err = client (azure.request updater (azure.g_sub g)))
         (azure.pool s) /\
  requestsOf (azure.trace s) ≡ₚ omap (sentBy updater) (azure.pool s) /\
  errorsOf (azure.trace s) ≡ₚ omap (loggedBy client updater) (azure.pool s) /\
  (azure.pc s = azure.MExited -> azure.wg s = 0).

(** A batch for the Azure updater: the apex and one host, with a client
    that fails on [host1]. *)
Definition exampleHosts : list (string * IP) :=
  [("@", exampleApex); ("host1", exampleHost1)].

Definition exampleSubmissions : list azure.submission :=
  [azure.mkSubmission "@" "A" (net.IPv4 198 100 123 139);
   azure.mkSubmission "host1" "AAAA"
     [32; 1; 4; 112; 31; 14; 8; 63; 18; 52; 18; 52; 18; 52; 18; 52]].

Definition exampleClient (r : azure.Request) : option string :=
  if bool_decide (azure.req_host r = "host1") then Some "429 Too Many Requests"
  else None.

Definition exampleUpdater : azure.azureDnsUpdater :=
  azure.newAzureDnsUpdater "dns-rg" "fully.qualified.update.zone".

(** The scenario of the README for the Azure updater, with a TTL of 600
    seconds in the configuration. *)
Definition exampleAzureConfig : azure.Config :=
  azure.mkConfig
    (azure.mkAzureConfig "client" "secret" "tenant" "subscription" "dns-rg")
    "fully.qualified.update.zone" exampleHosts 600.

Definition exampleAzureEnv : azure.Env :=
  azure.mkEnv "eth0" "eth1" None (Loaded exampleAzureConfig)
    (inl exampleInterfaces) None exampleClient.

(** The signed updater on the same hosts and the same TTL. *)
Definition exampleConfig600 : rfc2136.Config :=
  rfc2136.mkConfig "192.0.2.1:53" "fully.qualified.update.zone." "update.key."
    [("update.key.", "update.secret.")] exampleHosts 600.

(** ** Definitions for the further properties *)

(** Bit [q] of an address, counted from the most significant bit of its
    first byte, as prefix lengths count. *)
Definition prefixBit (a : list Z) (q : nat) : bool :=
  Z.testbit (a !!! (q / 8)%nat) (7 - Z.of_nat (q mod 8)).

(** The prefix length written in a CIDR literal: the decimal number
    after the slash. *)
Definition literalPrefix (raw : string) : Z :=
  match net.indexByte raw "/"%char with
  | None => 0
  | Some i => (net.dtoi (net.strDrop (S i) raw)).1.1
  end.

(** The scenario of the README on a machine whose [eth1] has no
    addresses: the IPv6 prefix is not found. *)
Definition exampleInterfacesNoSix : list Interface :=
  [mkInterface "eth0"
     (Some [Addr_IPNet (net.mkIPNet (net.IPv4 198 100 123 139)
                                    [255; 255; 255; 0])]);
   mkInterface "eth1" (Some [])].

Definition exampleEnvNoSix : rfc2136.Env :=
  rfc2136.mkEnv "eth0" "eth1" None (Loaded exampleConfig)
    (inl exampleInterfacesNoSix)
    "2015-06-01 12:00:00 +0000 UTC" 1433160000
    (fun _ _ _ => (None, None)).

(** The same machine with a configuration whose only host has a null
    entry: the zero value of the struct, never unmarshalled. *)
Definition exampleConfigNullHost : rfc2136.Config :=
  rfc2136.mkConfig "192.0.2.1:53" "fully.qualified.update.zone." "update.key."
    [("update.key.", "update.secret.")]
    [("host1", mkIP [] [])]
    300.

Definition exampleEnvNullHost : rfc2136.Env :=
  rfc2136.mkEnv "eth0" "eth1" None (Loaded exampleConfigNullHost)
    (inl exampleInterfacesNoSix)
    "2015-06-01 12:00:00 +0000 UTC" 1433160000
    (fun _ _ _ => (None, None)).

(** The scenario of the README with a server that accepts the update. *)
Definition exampleEnvAccepted : rfc2136.Env :=
  rfc2136.mkEnv "eth0" "eth1" None (Loaded exampleConfig) (inl exampleInterfaces)
    "2015-06-01 12:00:00 +0000 UTC" 1433160000
    (fun _ _ _ => (None, None)).

(** ** Shape of parsed literals *)

Lemma To16_shape (x : net.IP) : net.To16 x = [] \/ length (net.To16 x) = 16%nat.
Proof.
  unfold net.To16. repeat case_bool_decide; auto.
Qed.

Lemma parseIPv4_shape (s : string) :
  net.parseIPv4 s = [] \/ length (net.parseIPv4 s) = 16%nat.
Proof.
  unfold net.parseIPv4.
  destruct (net.parseIPv4_loop 4 0 s (replicate 4 0)) as [[s' p]|]; auto.
  destruct (negb _); auto.
Qed.

Lemma parseIPv6_loop_length (left : nat) :
  forall ip e i s st,
    net.parseIPv6_loop left ip e i s = Some st ->
    length (net.v6_ip st) = length ip.
Proof.
  induction left as [|left IH]; intros ip0 e i s st H; simpl in H.
  - by inversion H.
  - destruct (net.xtoi s) as [[n c] ok].
    repeat (case_match; simplify_eq; try done);
      simpl; rewrite ?length_insert; try done;
      match goal with
      | H : net.parseIPv6_loop _ _ _ _ _ = Some _ |- _ =>
          apply IH in H; rewrite H, ?length_insert; done
      end.
Qed.

Lemma expandEllipsis_length (ip0 : list Z) (e i : nat) :
  length (net.expandEllipsis ip0 e i) = length ip0.
Proof.
  unfold net.expandEllipsis.
  assert (Hins : forall (f : list Z -> nat -> list Z) js l,
             (forall l j, length (f l j) = length l) ->
             length (foldl f l js) = length l).
  { intros f js. induction js as [|j js IH]; intros l Hf; simpl; [done|].
    rewrite IH by done. apply Hf. }
  rewrite Hins by (intros; apply length_insert).
  rewrite Hins by (intros; apply length_insert). done.
Qed.

Lemma parseIPv6_from_shape (e : Z) (s : string) :
  net.parseIPv6_from e s = [] \/ length (net.parseIPv6_from e s) = 16%nat.
Proof.
  unfold net.parseIPv6_from.
  destruct (net.parseIPv6_loop 8 (replicate 16 0) e 0 s) as [st|] eqn:Hl; auto.
  apply parseIPv6_loop_length in Hl. rewrite length_replicate in Hl.
  repeat case_match; auto; right; rewrite ?expandEllipsis_length; done.
Qed.

Lemma parseIPv6_shape (s : string) :
  net.parseIPv6 s = [] \/ length (net.parseIPv6 s) = 16%nat.
Proof.
  unfold net.parseIPv6.
  repeat case_match; auto using parseIPv6_from_shape.
Qed.

Lemma CIDRMask_loop_length (l : nat) : forall n, length (net.CIDRMask_loop l n) = l.
Proof.
  induction l as [|l IH]; intros n; simpl; [done|].
  case_match; simpl; by rewrite IH.
Qed.

Lemma parseIPv4_mapped (s : string) :
  net.parseIPv4 s <> [] -> take 12 (net.parseIPv4 s) = net.v4InV6Prefix.
Proof.
  unfold net.parseIPv4.
  destruct (net.parseIPv4_loop 4 0 s (replicate 4 0)) as [[s' p]|]; [|done].
  by destruct (negb _).
Qed.

(** What [ParseCIDR] returns: a 16-byte address and the mask of a prefix
    length, 4 bytes long for a dotted-decimal literal (whose address is
    then IPv4-mapped) and 16 bytes long otherwise. *)
Lemma ParseCIDR_shape (s : string) (a : net.IP) (n : net.IPNet) :
  net.ParseCIDR s = Some (a, n) ->
  length a = 16%nat /\
  exists ones bits,
    ((bits = 32 /\ take 12 a = net.v4InV6Prefix) \/ bits = 128) /\
    0 <= ones <= bits /\
    net.IPNet_Mask n = net.CIDRMask ones bits /\
    length (net.IPNet_Mask n) = Z.to_nat (bits / 8).
Proof.
  unfold net.ParseCIDR. intros H.
  destruct (net.indexByte s "/") as [i|]; [|done].
  set (addr := net.strTake i s) in *.
  destruct (net.dtoi (net.strDrop (S i) s)) as [[ones c] ok].
  assert (Hshape : forall iplen a0,
    ((iplen = net.IPv4len /\ (a0 <> [] -> take 12 a0 = net.v4InV6Prefix))
     \/ iplen = net.IPv6len) ->
    (a0 = [] \/ length a0 = 16%nat) ->
    (if bool_decide (a0 = []) || negb ok
        || negb (bool_decide (c = String.length (net.strDrop (S i) s)))
        || (ones <? 0) || (8 * Z.of_nat iplen <? ones)
     then None
     else Some (a0, net.mkIPNet (net.Mask a0 (net.CIDRMask ones (8 * Z.of_nat iplen)))
                                (net.CIDRMask ones (8 * Z.of_nat iplen)))) = Some (a, n) ->
    length a = 16%nat /\
    exists ones bits,
      ((bits = 32 /\ take 12 a = net.v4InV6Prefix) \/ bits = 128) /\
      0 <= ones <= bits /\
      net.IPNet_Mask n = net.CIDRMask ones bits /\
      length (net.IPNet_Mask n) = Z.to_nat (bits / 8)).
  { intros iplen a0 Hlen Ha0 Hres.
    destruct (bool_decide (a0 = [])) eqn:Hnil; [done|].
    apply bool_decide_eq_false in Hnil.
    destruct ok; [|done]. simpl in Hres.
    destruct (bool_decide (c = _)); [|done]. simpl in Hres.
    destruct (ones <? 0) eqn:Hneg; [done|]. simpl in Hres.
    destruct (8 * Z.of_nat iplen <? ones) eqn:Hbig; [done|].
    apply Z.ltb_ge in Hneg, Hbig.
    simplify_eq. split; [by destruct Ha0|].
    exists ones, (8 * Z.of_nat iplen). simpl.
    assert (Hbits : (8 * Z.of_nat iplen = 32 /\ take 12 a = net.v4InV6Prefix)
                    \/ 8 * Z.of_nat iplen = 128).
    { destruct Hlen as [[-> Hpre] | ->]; [left|right]; auto. }
    repeat split; try done.
    unfold net.CIDRMask.
    assert ((ones <? 0) = false) as -> by (by apply Z.ltb_ge).
    assert ((8 * Z.of_nat iplen <? ones) = false) as -> by (by apply Z.ltb_ge).
    destruct Hbits as [[Hb _] | Hb]; rewrite Hb.
    - exact (CIDRMask_loop_length 4 ones).
    - exact (CIDRMask_loop_length 16 ones). }
  destruct (net.parseIPv4 addr) as [|b bs] eqn:H4.
  - eapply (Hshape net.IPv6len); [by right| apply parseIPv6_shape | exact H].
  - eapply (Hshape net.IPv4len); [left; split; [done|] | |exact H].
    + intros _. rewrite <- H4. apply parseIPv4_mapped. by rewrite H4.
    + rewrite <- H4. apply parseIPv4_shape.
Qed.

Lemma UnmarshalYAML_shape (u : option string) (p : IP) :
  UnmarshalYAML u = Some p -> wf_partial p.
Proof.
  unfold UnmarshalYAML. intros H.
  destruct (net.ParseCIDR (default "" u)) as [[a n]|] eqn:Hp; [|done].
  simplify_eq. unfold wf_partial. simpl.
  apply ParseCIDR_shape in Hp as (Ha & ones & bits & Hbits & _ & _ & Hlen).
  split; [done|]. rewrite Hlen.
  destruct Hbits as [[-> Hpre] | ->]; [left|right]; auto.
Qed.

(** ** The merge loop *)

Lemma orInto_app (ourIp : list Z) :
  forall pre l,
    (length ourIp <= length l)%nat ->
    orInto (length pre) ourIp (pre ++ l) =
      Ok (pre ++ zip_with Z.lor (take (length ourIp) l) ourIp
              ++ drop (length ourIp) l).
Proof.
  induction ourIp as [|val rest IH]; intros pre l Hlen; simpl in *.
  - by rewrite drop_0.
  - destruct l as [|b l]; simpl in *; [lia|].
    rewrite list_lookup_middle by done.
    assert (Hins : <[length pre:=Z.lor b val]> (pre ++ b :: l)
                   = (pre ++ [Z.lor b val]) ++ l).
    { rewrite insert_app_r_alt, Nat.sub_diag by lia. simpl.
      by rewrite <- app_assoc. }
    rewrite Hins.
    replace (S (length pre)) with (length (pre ++ [Z.lor b val]))
      by (rewrite length_app; simpl; lia).
    rewrite IH by lia. by rewrite <- app_assoc.
Qed.

Lemma orInto_ok (ourIp newIp : list Z) :
  length ourIp = length newIp ->
  orInto 0 ourIp newIp = Ok (zip_with Z.lor newIp ourIp).
Proof.
  intros Hlen.
  pose proof (orInto_app ourIp [] newIp) as H. simpl in H.
  rewrite H by lia.
  rewrite Hlen, firstn_all, drop_all. by rewrite app_nil_r.
Qed.

Lemma orInto_nil (ourIp : list Z) :
  ourIp <> [] -> orInto 0 ourIp [] = Panic index_out_of_range.
Proof. destruct ourIp; done. Qed.

(** ** The merge in closed form *)

(** Turn [length l = n] for a literal [n] into the elements of [l]. *)
Ltac explode H :=
  match type of H with
  | length ?l = O => apply nil_length_inv in H; subst l
  | length ?l = S _ =>
      let b := fresh "b" in
      destruct l as [|b l]; [discriminate H|];
      cbn [length] in H; apply (inj S) in H; explode H
  end.

Lemma allFF_replicate (l : list Z) :
  net.allFF l = true -> l = replicate (length l) 255.
Proof.
  unfold net.allFF. induction l as [|b l IH]; [done|].
  cbn [forallb length replicate].
  intros [Hb Hl]%andb_prop. apply Z.eqb_eq in Hb. subst b.
  f_equal. by apply IH.
Qed.

Lemma To16_4 (d : net.IP) :
  length d = 4%nat -> net.To16 d = net.v4InV6Prefix ++ d.
Proof. intros Hd. explode Hd. reflexivity. Qed.

Lemma To16_16 (d : net.IP) : length d = 16%nat -> net.To16 d = d.
Proof. intros Hd. unfold net.To16. rewrite Hd. reflexivity. Qed.

Lemma Mask_4_4 (d : net.IP) (m : net.IPMask) :
  length d = 4%nat -> length m = 4%nat -> net.Mask d m = zip_with Z.land d m.
Proof. intros Hd Hm. explode Hd. explode Hm. reflexivity. Qed.

Lemma Mask_16_16 (d : net.IP) (m : net.IPMask) :
  length d = 16%nat -> length m = 16%nat -> net.Mask d m = zip_with Z.land d m.
Proof. intros Hd Hm. explode Hd. explode Hm. reflexivity. Qed.

Lemma Mask_4_16 (d : net.IP) (m : net.IPMask) :
  length d = 4%nat -> length m = 16%nat ->
  net.Mask d m =
    if net.allFF (take 12 m) then zip_with Z.land d (drop 12 m) else [].
Proof.
  intros Hd Hm. explode Hd. explode Hm.
  unfold net.Mask. cbn [length take drop bool_decide].
  destruct (net.allFF _); reflexivity.
Qed.

Lemma Mask_16_4 (d : net.IP) (m : net.IPMask) :
  length d = 16%nat -> length m = 4%nat ->
  net.Mask d m =
    if net.bytesEqual (take 12 d) net.v4InV6Prefix
    then zip_with Z.land (drop 12 d) m else [].
Proof.
  intros Hd Hm. explode Hd. explode Hm.
  unfold net.Mask. cbn [length take drop].
  destruct (net.bytesEqual _ _); reflexivity.
Qed.

(** The mask does not apply to an address that has neither 4 nor 16
    bytes. *)
Lemma Mask_other (d : net.IP) (m : net.IPMask) :
  length d <> 4%nat -> length d <> 16%nat ->
  (length m = 4%nat \/ length m = 16%nat) ->
  net.Mask d m = [].
Proof.
  intros Hd4 Hd16 Hm. unfold net.Mask, net.IPv4len, net.IPv6len.
  rewrite (bool_decide_eq_false_2 (length d = 4%nat)) by done.
  rewrite (bool_decide_eq_false_2 (length d = 16%nat)) by done.
  rewrite !andb_false_r. cbn [andb].
  rewrite bool_decide_eq_false_2; [done|]. lia.
Qed.

Lemma prefix_land_ones :
  zip_with Z.land net.v4InV6Prefix (replicate 12 255) = net.v4InV6Prefix.
Proof. vm_compute. reflexivity. Qed.

Lemma split_at_12 (l : list Z) : l = take 12 l ++ drop 12 l.
Proof. by rewrite take_drop. Qed.

(** Masking and then widening is masking the widened address with the
    widened mask. *)
Lemma To16_Mask (d : net.IP) (m : net.IPMask) :
  (length m = 4%nat \/ length m = 16%nat) ->
  net.Mask d m <> [] ->
  net.To16 (net.Mask d m) = zip_with Z.land (net.To16 d) (mask16 m).
Proof.
  intros Hm Hfit.
  destruct (decide (length d = 4%nat)) as [Hd|Hd4];
    [|destruct (decide (length d = 16%nat)) as [Hd|Hd16]].
  - rewrite (To16_4 d Hd). destruct Hm as [Hm|Hm].
    + rewrite (Mask_4_4 d m Hd Hm).
      unfold mask16. rewrite bool_decide_eq_true_2 by done.
      rewrite To16_4 by (rewrite length_zip_with; lia).
      rewrite zip_with_app by done. by rewrite prefix_land_ones.
    + rewrite (Mask_4_16 d m Hd Hm) in *.
      destruct (net.allFF (take 12 m)) eqn:Hff; [|done].
      apply allFF_replicate in Hff.
      rewrite length_take, Hm in Hff. change (12 `min` 16)%nat with 12%nat in Hff.
      unfold mask16. rewrite bool_decide_eq_false_2 by (rewrite Hm; done).
      rewrite To16_4 by (rewrite length_zip_with, length_drop; lia).
      rewrite (split_at_12 m) at 2. rewrite Hff.
      rewrite zip_with_app by done. by rewrite prefix_land_ones.
  - rewrite (To16_16 d Hd). destruct Hm as [Hm|Hm].
    + rewrite (Mask_16_4 d m Hd Hm) in *.
      unfold net.bytesEqual in *.
      case_bool_decide as Hpre; [|done].
      unfold mask16. rewrite bool_decide_eq_true_2 by done.
      rewrite To16_4 by (rewrite length_zip_with, length_drop; lia).
      rewrite (split_at_12 d) at 2. rewrite Hpre.
      rewrite zip_with_app by done. by rewrite prefix_land_ones.
    + rewrite (Mask_16_16 d m Hd Hm).
      unfold mask16. rewrite bool_decide_eq_false_2 by (rewrite Hm; done).
      apply To16_16. rewrite length_zip_with; lia.
  - by rewrite Mask_other in Hfit.
Qed.

(** A discovered address the mask applies to has a 16-byte form. *)
Lemma Mask_fits_To16 (d : net.IP) (m : net.IPMask) :
  (length m = 4%nat \/ length m = 16%nat) ->
  net.Mask d m <> [] ->
  length (net.To16 d) = 16%nat.
Proof.
  intros Hm Hfit.
  destruct (decide (length d = 4%nat)) as [Hd|Hd4];
    [|destruct (decide (length d = 16%nat)) as [Hd|Hd16]].
  - rewrite To16_4 by done. rewrite length_app, Hd. done.
  - by rewrite To16_16.
  - by rewrite Mask_other in Hfit.
Qed.

Lemma mask16_length (m : net.IPMask) :
  (length m = 4%nat \/ length m = 16%nat) -> length (mask16 m) = 16%nat.
Proof.
  unfold mask16. intros [Hm|Hm].
  - rewrite bool_decide_eq_true_2 by done.
    rewrite length_app, length_replicate. lia.
  - rewrite bool_decide_eq_false_2 by (rewrite Hm; done). done.
Qed.

Lemma wf_partial_mask_length (p : IP) :
  wf_partial p -> length (mask p) = 4%nat \/ length (mask p) = 16%nat.
Proof. intros [_ [[H _]|H]]; auto. Qed.

Lemma wf_partial_To16 (p : IP) : wf_partial p -> net.To16 (ip p) = ip p.
Proof. intros [H _]. by apply To16_16. Qed.

Lemma ApplyIPToMask_merged (p : IP) (d : net.IP) :
  wf_partial p ->
  net.Mask d (mask p) <> [] ->
  ApplyIPToMask p d = Ok (merged d p).
Proof.
  intros Hwf Hfit.
  pose proof (wf_partial_mask_length p Hwf) as Hm.
  unfold ApplyIPToMask, merged.
  rewrite (To16_Mask d (mask p) Hm Hfit), (wf_partial_To16 p Hwf).
  apply orInto_ok.
  rewrite length_zip_with, (Mask_fits_To16 d (mask p) Hm Hfit),
    (mask16_length (mask p) Hm).
  destruct Hwf as [-> _]. done.
Qed.

Lemma zip_with_lookup_total (f : Z -> Z -> Z) (a b : list Z) (idx : nat) :
  (idx < length a)%nat -> (idx < length b)%nat ->
  zip_with f a b !!! idx = f (a !!! idx) (b !!! idx).
Proof.
  intros Ha Hb.
  destruct (lookup_lt_is_Some_2 a idx Ha) as [x Hx].
  destruct (lookup_lt_is_Some_2 b idx Hb) as [y Hy].
  rewrite !list_lookup_total_alt, lookup_zip_with, Hx, Hy. done.
Qed.

Lemma merged_bit (p : IP) (d : net.IP) (idx : nat) (k : Z) :
  wf_partial p ->
  net.Mask d (mask p) <> [] ->
  (idx < 16)%nat ->
  bit (merged d p) idx k =
    (bit (net.To16 d) idx k && bit (mask16 (mask p)) idx k) || bit (ip p) idx k.
Proof.
  intros Hwf Hfit Hidx.
  pose proof (wf_partial_mask_length p Hwf) as Hm.
  pose proof (Mask_fits_To16 d (mask p) Hm Hfit) as Hd.
  pose proof (mask16_length (mask p) Hm) as Hm16.
  unfold bit, merged. rewrite (wf_partial_To16 p Hwf).
  destruct Hwf as [Hip _].
  rewrite zip_with_lookup_total by (rewrite ?length_zip_with; lia).
  rewrite zip_with_lookup_total by lia.
  by rewrite Z.lor_spec, Z.land_spec.
Qed.

Lemma testbit_255 (k : Z) : 0 <= k < 8 -> Z.testbit 255 k = true.
Proof.
  intros Hk.
  assert (k = 0 \/ k = 1 \/ k = 2 \/ k = 3 \/ k = 4 \/ k = 5 \/ k = 6 \/ k = 7)
    as Hcases by lia.
  destruct_or!; subst; reflexivity.
Qed.

Lemma Forall_eq_replicate (x : Z) (l : list Z) :
  Forall (fun b => b = x) l -> l = replicate (length l) x.
Proof.
  induction 1 as [|b l -> _ IH]; [done|]. cbn [length replicate]. by f_equal.
Qed.

Lemma mask16_full (m : net.IPMask) :
  (length m = 4%nat \/ length m = 16%nat) ->
  Forall (fun b => b = 255) m -> mask16 m = replicate 16 255.
Proof.
  intros Hm Hall. apply Forall_eq_replicate in Hall.
  unfold mask16. destruct Hm as [Hm|Hm]; rewrite Hm in Hall.
  - rewrite bool_decide_eq_true_2 by done. by rewrite Hall.
  - rewrite bool_decide_eq_false_2 by (rewrite Hm; done). done.
Qed.

(** Under a 4-byte mask, only an IPv4 or IPv4-mapped address fits. *)
Lemma Mask_fits_mapped (d : net.IP) (m : net.IPMask) :
  length m = 4%nat ->
  net.Mask d m <> [] ->
  take 12 (net.To16 d) = net.v4InV6Prefix.
Proof.
  intros Hm Hfit.
  destruct (decide (length d = 4%nat)) as [Hd|Hd4];
    [|destruct (decide (length d = 16%nat)) as [Hd|Hd16]].
  - rewrite To16_4 by done. by apply take_app_length'.
  - rewrite To16_16 by done. rewrite (Mask_16_4 d m Hd Hm) in Hfit.
    unfold net.bytesEqual in Hfit. by case_bool_decide.
  - rewrite Mask_other in Hfit by auto. done.
Qed.

Lemma zip_land_zeros (x : list Z) (n : nat) :
  length x = n -> zip_with Z.land x (replicate n 0) = replicate n 0.
Proof.
  revert n. induction x as [|b x IH]; intros n Hn; subst n; [done|].
  cbn [length replicate zip_with]. rewrite Z.land_0_r. f_equal. by apply IH.
Qed.

Lemma zip_lor_zeros (a : list Z) (n : nat) :
  length a = n -> zip_with Z.lor (replicate n 0) a = a.
Proof.
  revert n. induction a as [|b a IH]; intros n Hn; subst n; [done|].
  cbn [length replicate zip_with]. rewrite Z.lor_0_l. f_equal. by apply IH.
Qed.

Lemma prefix_lor_prefix :
  zip_with Z.lor net.v4InV6Prefix net.v4InV6Prefix = net.v4InV6Prefix.
Proof. vm_compute. reflexivity. Qed.

Lemma merged_zero_mask (p : IP) (d : net.IP) :
  wf_partial p ->
  net.Mask d (mask p) <> [] ->
  Forall (fun b => b = 0) (mask p) ->
  merged d p = ip p.
Proof.
  intros Hwf Hfit Hall.
  pose proof (wf_partial_mask_length p Hwf) as Hm.
  pose proof (Mask_fits_To16 d (mask p) Hm Hfit) as Hd.
  unfold merged. rewrite (wf_partial_To16 p Hwf).
  apply Forall_eq_replicate in Hall.
  destruct Hwf as [Hip [[Hm4 Hpre]|Hm16]].
  - pose proof (Mask_fits_mapped d (mask p) Hm4 Hfit) as Hdpre.
    unfold mask16. rewrite bool_decide_eq_true_2 by done.
    rewrite Hall, Hm4.
    rewrite (split_at_12 (net.To16 d)), Hdpre.
    rewrite zip_with_app by done.
    rewrite prefix_land_ones.
    rewrite zip_land_zeros by (rewrite length_drop; lia).
    rewrite (split_at_12 (ip p)) at 1. rewrite Hpre.
    rewrite zip_with_app by done.
    rewrite prefix_lor_prefix.
    rewrite zip_lor_zeros by (rewrite length_drop; lia).
    rewrite <- Hpre. by rewrite take_drop.
  - unfold mask16. rewrite bool_decide_eq_false_2 by (rewrite Hm16; done).
    rewrite Hall, Hm16.
    rewrite zip_land_zeros by done.
    by apply zip_lor_zeros.
Qed.

(** ** Properties of the merge *)

Lemma merge_keeps_discovered_under_mask_aux (p : IP) (d : net.IP) :
  wf_partial p ->
  net.Mask d (mask p) <> [] ->
  ApplyIPToMask p d = Ok (merged d p) /\
  (forall idx k, (idx < 16)%nat ->
     bit (merged d p) idx k =
       if bit (mask16 (mask p)) idx k
       then bit (net.To16 d) idx k || bit (ip p) idx k
       else bit (ip p) idx k).
Proof.
  intros Hwf Hfit. split; [by apply ApplyIPToMask_merged|].
  intros idx k Hidx. rewrite merged_bit by done.
  destruct (bit (mask16 (mask p)) idx k).
  - by rewrite andb_true_r.
  - by rewrite andb_false_r.
Qed.


(** C1, as amended.  For a parsed partial address [p] and a discovered
    address [d] that the mask of [p] applies to, the merge returns
    [(d & mask) | base] over the 16-byte forms: where the mask bit is 1
    the result bit is the bit of [d] ORed with the base bit, where it is
    0 the result bit is the base bit.  So a partial with an all-zero
    mask (a /0) overrides the discovered address completely, and under
    an all-ones mask (a /32 or /128) every bit is the bit of [d] ORed
    with the base bit. *)
Theorem merge_keeps_discovered_under_mask
    (u : option string) (p : IP) (d : net.IP) :
  UnmarshalYAML u = Some p ->
  net.Mask d (mask p) <> [] ->
  ApplyIPToMask p d = Ok (merged d p) /\
  (forall idx k, (idx < 16)%nat ->
     bit (merged d p) idx k =
       if bit (mask16 (mask p)) idx k
       then bit (net.To16 d) idx k || bit (ip p) idx k
       else bit (ip p) idx k) /\
  (Forall (fun b => b = 0) (mask p) -> merged d p = ip p) /\
  (Forall (fun b => b = 255) (mask p) ->
     forall idx k, (idx < 16)%nat -> 0 <= k < 8 ->
       bit (merged d p) idx k = bit (net.To16 d) idx k || bit (ip p) idx k).
Proof.
  intros Hp Hfit. apply UnmarshalYAML_shape in Hp.
  destruct (merge_keeps_discovered_under_mask_aux p d Hp Hfit) as [Hok Hbits].
  split; [done|].
  split; [done|].
  split; [by apply merged_zero_mask|].
  intros Hfull idx k Hidx Hk. rewrite Hbits by done.
  rewrite (mask16_full (mask p)) by (auto using wf_partial_mask_length).
  unfold bit at 1.
  rewrite list_lookup_total_alt, lookup_replicate_2 by done. simpl.
  by rewrite testbit_255.
Qed.

Lemma merge_keeps_discovered_under_mask_witness :
  ApplyIPToMask (mkIP (net.IPv4 0 0 0 9) [255; 255; 255; 0]) [1; 2; 3; 4]
  = Ok (net.IPv4 1 2 3 9).
Proof.
  destruct (merge_keeps_discovered_under_mask (Some "0.0.0.9/24")
              (mkIP (net.IPv4 0 0 0 9) [255; 255; 255; 0]) [1; 2; 3; 4])
    as [H _].
  - vm_compute. reflexivity.
  - vm_compute. discriminate.
  - exact H.
Defined.

(** C1 as the specification states it fails on the documented example:
    with the partial of [0.0.0.9/24] and the discovered [1.2.3.4] the
    program returns [1.2.3.9], while [(d & ~mask) | base] is [0.0.0.13];
    bit 2 of the last byte has mask bit 0 and is set in [d], yet is
    clear in the result.  A /32 partial does not override ([0.0.0.0/32]
    yields the discovered address) and a /0 partial is not overridden
    ([9.9.9.9/0] yields [9.9.9.9]). *)
Lemma merge_as_specified_fails :
  UnmarshalYAML (Some "0.0.0.9/24")
    = Some (mkIP (net.IPv4 0 0 0 9) [255; 255; 255; 0]) /\
  ApplyIPToMask (mkIP (net.IPv4 0 0 0 9) [255; 255; 255; 0]) [1; 2; 3; 4]
    = Ok (net.IPv4 1 2 3 9) /\
  merge_as_specified [1; 2; 3; 4] (mkIP (net.IPv4 0 0 0 9) [255; 255; 255; 0])
    = net.IPv4 0 0 0 13 /\
  ApplyIPToMask (mkIP (net.IPv4 0 0 0 9) [255; 255; 255; 0]) [1; 2; 3; 4]
    <> Ok (merge_as_specified [1; 2; 3; 4]
             (mkIP (net.IPv4 0 0 0 9) [255; 255; 255; 0])) /\
  bit (mask16 [255; 255; 255; 0]) 15 2 = false /\
  bit (net.To16 [1; 2; 3; 4]) 15 2 = true /\
  bit (net.IPv4 1 2 3 9) 15 2 = false /\
  mergeLiteral "0.0.0.0/32" [1; 2; 3; 4] = Some (Ok (net.IPv4 1 2 3 4)) /\
  mergeLiteral "9.9.9.9/0" [1; 2; 3; 4] = Some (Ok (net.IPv4 9 9 9 9)).
Proof.
  repeat split; try (vm_compute; reflexivity).
  vm_compute. discriminate.
Qed.

(** C2.  The documented examples: [0.0.0.9/24] merged with [1.2.3.4]
    gives [1.2.3.9] (for the 4-byte address that [chooseFour] returns
    and for its 16-byte form alike), and [::1234:1234:1234:1234/64]
    merged with the prefix [2001:0470:1f0e:083f::] gives
    [2001:0470:1f0e:083f:1234:1234:1234:1234]. *)
Theorem merge_documented_examples :
  mergeLiteral "0.0.0.9/24" [1; 2; 3; 4] = Some (Ok (net.IPv4 1 2 3 9)) /\
  mergeLiteral "0.0.0.9/24" (net.IPv4 1 2 3 4) = Some (Ok (net.IPv4 1 2 3 9)) /\
  net.To4 (net.IPv4 1 2 3 9) = [1; 2; 3; 9] /\
  mergeLiteral "::1234:1234:1234:1234/64" (net.parseIPv6 "2001:0470:1f0e:083f::")
    = Some (Ok (net.parseIPv6 "2001:0470:1f0e:083f:1234:1234:1234:1234")) /\
  net.parseIPv6 "2001:0470:1f0e:083f:1234:1234:1234:1234"
    = [32; 1; 4; 112; 31; 14; 8; 63; 18; 52; 18; 52; 18; 52; 18; 52].
Proof. repeat split; vm_compute; reflexivity. Qed.

Lemma merge_without_base_panics_aux (p : IP) :
  wf_partial p -> ApplyIPToMask p [] = Panic index_out_of_range.
Proof.
  intros Hwf.
  pose proof (wf_partial_mask_length p Hwf) as Hm.
  unfold ApplyIPToMask. rewrite (wf_partial_To16 p Hwf).
  rewrite Mask_other by done.
  apply orInto_nil.
  destruct Hwf as [Hip _]. by destruct (ip p).
Qed.

Lemma Mask_nil_ip (m : net.IPMask) : net.Mask [] m = [].
Proof.
  unfold net.Mask. cbn [length].
  change (bool_decide (0%nat = net.IPv4len)) with false.
  change (bool_decide (0%nat = net.IPv6len)) with false.
  rewrite !andb_false_r. cbn [andb].
  by case_bool_decide.
Qed.

(** With a nil base the merge panics as soon as the base of the partial
    address has a byte to OR in, and only then. *)
Lemma merge_nil_base (p : IP) :
  net.To16 (ip p) <> [] -> ApplyIPToMask p [] = Panic index_out_of_range.
Proof.
  intros Hbase. unfold ApplyIPToMask. rewrite Mask_nil_ip.
  by apply orInto_nil.
Qed.

(** C3, as amended.  Merging a partial address that was parsed from a
    CIDR literal (or, more generally, whose base has a 4- or 16-byte
    form) with an absent (nil) base address panics on the first byte:
    no address is returned. *)
Theorem merge_without_base_panics (u : option string) (p : IP) :
  UnmarshalYAML u = Some p \/ net.To16 (ip p) <> [] ->
  ApplyIPToMask p [] = Panic index_out_of_range.
Proof.
  intros [Hp|Hbase].
  - apply merge_without_base_panics_aux. by eapply UnmarshalYAML_shape.
  - by apply merge_nil_base.
Qed.

Lemma merge_without_base_panics_witness :
  ApplyIPToMask (mkIP (net.IPv4 0 0 0 0) [255; 255; 255; 255]) []
  = Panic index_out_of_range.
Proof.
  apply (merge_without_base_panics (Some "0.0.0.0/32")).
  left. vm_compute. reflexivity.
Defined.

(** C3 as stated fails for a host entry that was never unmarshalled (a
    YAML null leaves the zero value of the struct): it counts as IPv6,
    and merged with the absent IPv6 base it returns the nil address
    without a panic.  The run goes on, ends normally, and the update it
    sends carries an AAAA record with a nil address for that host. *)
Lemma unparsed_entry_merges_without_base :
  Is4 (mkIP [] []) = false /\
  ApplyIPToMask (mkIP [] []) [] = Ok [] /\
  (resolve "eth0" "eth1" exampleInterfacesNoSix).2 = [] /\
  (run (rfc2136.main exampleEnvNullHost)).2 = Ok tt /\
  (fun x => dns.Ns x.1.2) <$> exchanges (run (rfc2136.main exampleEnvNullHost)).1
  = [[dns.ANY (dns.mkHeader "host1.fully.qualified.update.zone."
                            dns.TypeANY dns.ClassANY 0 0);
      dns.AAAA (dns.mkHeader "host1.fully.qualified.update.zone."
                             dns.TypeAAAA dns.ClassINET 300 0) [];
      dns.TXT (dns.mkHeader "fully.qualified.update.zone."
                            dns.TypeTXT dns.ClassINET 300 0)
              ["2015-06-01 12:00:00 +0000 UTC"]]].
Proof. repeat split; vm_compute; reflexivity. Qed.

Lemma UnmarshalYAML_literal (raw : string) (p : IP) :
  UnmarshalYAML (Some raw) = Some p -> ip p = literalAddress raw.
Proof.
  unfold UnmarshalYAML. change (default "" (Some raw)) with raw.
  unfold literalAddress, net.ParseCIDR. intros H.
  destruct (net.indexByte raw "/") as [i|]; [|done].
  destruct (net.dtoi (net.strDrop (S i) raw)) as [[ones c] ok].
  destruct (net.parseIPv4 (net.strTake i raw)) as [|b bs];
    (destruct (_ || _); [done|]); by simplify_eq.
Qed.

(** C10.  Parsing stores the address of the literal in full, host bits
    and network bits alike ([10.0.0.9/24] is stored as [10.0.0.9], not
    as the network [10.0.0.0]).  In the merge every set base bit
    survives: inside the mask region the result bit is the discovered
    bit ORed with the base bit, so [10.0.0.9/24] merged with [1.2.3.4]
    gives [11.2.3.9]. *)
Theorem parse_keeps_full_address (raw : string) (p : IP) :
  UnmarshalYAML (Some raw) = Some p ->
  ip p = literalAddress raw /\
  (forall d, net.Mask d (mask p) <> [] ->
     ApplyIPToMask p d = Ok (merged d p) /\
     forall idx k, (idx < 16)%nat ->
       (bit (mask16 (mask p)) idx k = true ->
        bit (merged d p) idx k = bit (net.To16 d) idx k || bit (ip p) idx k) /\
       (bit (ip p) idx k = true -> bit (merged d p) idx k = true)) /\
  UnmarshalYAML (Some "10.0.0.9/24")
    = Some (mkIP (net.IPv4 10 0 0 9) [255; 255; 255; 0]) /\
  mergeLiteral "10.0.0.9/24" [1; 2; 3; 4] = Some (Ok (net.IPv4 11 2 3 9)).
Proof.
  intros Hp. split; [by apply UnmarshalYAML_literal|].
  split; [|split; vm_compute; reflexivity].
  intros d Hfit.
  destruct (merge_keeps_discovered_under_mask_aux p d) as [Hok Hbits];
    [by eapply UnmarshalYAML_shape|done|].
  split; [done|]. intros idx k Hidx. rewrite Hbits by done.
  split.
  - by intros ->.
  - intros ->. destruct (bit (mask16 (mask p)) idx k); [|done].
    by rewrite orb_true_r.
Qed.

Lemma parse_keeps_full_address_witness :
  ip (mkIP (net.IPv4 10 0 0 9) [255; 255; 255; 0]) = literalAddress "10.0.0.9/24".
Proof.
  apply (parse_keeps_full_address "10.0.0.9/24").
  vm_compute. reflexivity.
Defined.

(** ** Properties of the resolver *)

Lemma chooseUnicast_kept (a : list Addr) : chooseUnicast a = omap kept a.
Proof.
  induction a as [|x a IH]; [done|].
  destruct x as [n| |]; simpl; [|done..].
  destruct (net.IsGlobalUnicast (net.IPNet_IP n)); simpl; by rewrite IH.
Qed.

Lemma IsGlobalUnicast_excludes (x : net.IP) :
  net.IsGlobalUnicast x = true ->
  (length x = 4%nat \/ length x = 16%nat) /\
  net.IsLoopback x = false /\
  net.IsLinkLocalUnicast x = false /\
  net.IsMulticast x = false /\
  net.IsUnspecified x = false.
Proof.
  unfold net.IsGlobalUnicast. intros H.
  repeat (apply andb_prop in H as [H ?]).
  apply orb_prop in H.
  repeat split; try (by apply negb_true_iff).
  destruct H as [H|H]; apply bool_decide_eq_true in H; auto.
Qed.

Lemma To4_shape (x : net.IP) : net.To4 x = [] \/ length (net.To4 x) = 4%nat.
Proof.
  unfold net.To4. case_bool_decide as H4; [by right|].
  case_bool_decide as H16; simpl; [|by left].
  destruct (_ && _); [right|by left].
  rewrite length_take, length_drop. unfold net.IPv6len in *. lia.
Qed.

Lemma chooseFour_first (l : list net.IPNet) :
  (exists pre n post,
      l = pre ++ n :: post /\
      Forall (fun m => net.To4 (net.IPNet_IP m) = []) pre /\
      net.To4 (net.IPNet_IP n) <> [] /\
      chooseFour l = net.To4 (net.IPNet_IP n)) \/
  (Forall (fun m => net.To4 (net.IPNet_IP m) = []) l /\ chooseFour l = []).
Proof.
  induction l as [|x l IH]; [by right|]. simpl.
  case_bool_decide as Hx; simpl.
  - destruct IH as [(pre & n & post & -> & Hpre & Hn & Hres) | [Hall Hres]].
    + left. exists (x :: pre), n, post. by repeat split; [constructor|..].
    + right. by split; [constructor|].
  - left. by exists [], x, l.
Qed.

Lemma chooseSix_first (l : list net.IPNet) :
  (exists pre n post,
      l = pre ++ n :: post /\
      Forall (fun m => net.To4 (net.IPNet_IP m) <> []) pre /\
      net.To4 (net.IPNet_IP n) = [] /\
      chooseSix l = net.Mask (net.IPNet_IP n) (net.IPNet_Mask n)) \/
  (Forall (fun m => net.To4 (net.IPNet_IP m) <> []) l /\ chooseSix l = []).
Proof.
  induction l as [|x l IH]; [by right|]. simpl.
  case_bool_decide as Hx; simpl.
  - left. by exists [], x, l.
  - destruct IH as [(pre & n & post & -> & Hpre & Hn & Hres) | [Hall Hres]].
    + left. exists (x :: pre), n, post. by repeat split; [constructor|..].
    + right. by split; [constructor|].
Qed.

(** C5.  The resolver keeps exactly the [*net.IPNet] entries whose
    address is global unicast, in enumeration order; none of them is a
    loopback, link-local or multicast address.  The v4 result is the
    4-byte form of the first kept address that has one, and nil when
    there is none; the v6 result is the first kept address without a
    4-byte form, masked with its own mask (byte by byte when the mask
    has the 16 bytes of a prefix length), and nil when there is none. *)
Theorem resolver_takes_first_global_unicast (a : list Addr) :
  chooseUnicast a = omap kept a /\
  Forall (fun n =>
            net.IsGlobalUnicast (net.IPNet_IP n) = true /\
            net.IsLoopback (net.IPNet_IP n) = false /\
            net.IsLinkLocalUnicast (net.IPNet_IP n) = false /\
            net.IsMulticast (net.IPNet_IP n) = false)
         (chooseUnicast a) /\
  ((exists pre n post,
       chooseUnicast a = pre ++ n :: post /\
       Forall (fun m => net.To4 (net.IPNet_IP m) = []) pre /\
       net.To4 (net.IPNet_IP n) <> [] /\
       length (net.To4 (net.IPNet_IP n)) = 4%nat /\
       chooseFour (chooseUnicast a) = net.To4 (net.IPNet_IP n)) \/
   (Forall (fun m => net.To4 (net.IPNet_IP m) = []) (chooseUnicast a) /\
    chooseFour (chooseUnicast a) = [])) /\
  ((exists pre n post,
       chooseUnicast a = pre ++ n :: post /\
       Forall (fun m => net.To4 (net.IPNet_IP m) <> []) pre /\
       net.To4 (net.IPNet_IP n) = [] /\
       chooseSix (chooseUnicast a) = net.Mask (net.IPNet_IP n) (net.IPNet_Mask n) /\
       (length (net.IPNet_Mask n) = 16%nat ->
        chooseSix (chooseUnicast a)
        = zip_with Z.land (net.IPNet_IP n) (net.IPNet_Mask n))) \/
   (Forall (fun m => net.To4 (net.IPNet_IP m) <> []) (chooseUnicast a) /\
    chooseSix (chooseUnicast a) = [])).
Proof.
  assert (Hkept : Forall (fun n => net.IsGlobalUnicast (net.IPNet_IP n) = true)
                         (chooseUnicast a)).
  { rewrite chooseUnicast_kept. apply Forall_forall. intros n Hn.
    apply list_elem_of_omap in Hn as (x & _ & Hx).
    destruct x as [n'| |]; simpl in Hx; [|done..].
    destruct (net.IsGlobalUnicast (net.IPNet_IP n')) eqn:Hg; by simplify_eq. }
  split; [apply chooseUnicast_kept|].
  split.
  { eapply Forall_impl; [exact Hkept|]. intros n Hn. simpl.
    destruct (IsGlobalUnicast_excludes _ Hn) as (_ & Hlo & Hll & Hmc & _).
    auto. }
  split.
  - destruct (chooseFour_first (chooseUnicast a))
      as [(pre & n & post & Heq & Hpre & Hn & Hres) | [Hall Hres]]; [left|by right].
    exists pre, n, post. repeat split; try done.
    by destruct (To4_shape (net.IPNet_IP n)).
  - destruct (chooseSix_first (chooseUnicast a))
      as [(pre & n & post & Heq & Hpre & Hn & Hres) | [Hall Hres]]; [left|by right].
    exists pre, n, post. repeat split; try done.
    intros Hm. rewrite Hres. apply Mask_16_16; [|done].
    assert (Hg : net.IsGlobalUnicast (net.IPNet_IP n) = true).
    { rewrite Heq in Hkept. apply Forall_app in Hkept as [_ Hk].
      by apply Forall_cons in Hk as [Hk _]. }
    apply IsGlobalUnicast_excludes in Hg as [[H4|H16] _]; [|done].
    exfalso. unfold net.To4 in Hn.
    rewrite bool_decide_eq_true_2 in Hn by done.
    rewrite Hn in H4. done.
Qed.

(** C9.  An interface whose addresses cannot be enumerated is skipped,
    and one with no addresses yields nil for the family it is named
    for: in either case it adds no address (each result is what it was
    before, or nil, so a result that was not found stays not found),
    and the loop goes on with the interfaces that follow. *)
Theorem unusable_interface_contributes_nothing
    (fourFrom sixFrom : string) (pre post : list Interface) (iface : Interface) :
  unusable iface ->
  (Addrs iface = None ->
   resolve fourFrom sixFrom (pre ++ [iface]) = resolve fourFrom sixFrom pre) /\
  ((resolve fourFrom sixFrom (pre ++ [iface])).1 = (resolve fourFrom sixFrom pre).1
   \/ (resolve fourFrom sixFrom (pre ++ [iface])).1 = []) /\
  ((resolve fourFrom sixFrom (pre ++ [iface])).2 = (resolve fourFrom sixFrom pre).2
   \/ (resolve fourFrom sixFrom (pre ++ [iface])).2 = []) /\
  ((resolve fourFrom sixFrom pre).1 = [] ->
   (resolve fourFrom sixFrom (pre ++ [iface])).1 = []) /\
  ((resolve fourFrom sixFrom pre).2 = [] ->
   (resolve fourFrom sixFrom (pre ++ [iface])).2 = []) /\
  resolve fourFrom sixFrom (pre ++ iface :: post)
  = foldl (resolveStep fourFrom sixFrom)
          (resolve fourFrom sixFrom (pre ++ [iface])) post.
Proof.
  intros Hun. unfold resolve.
  rewrite !foldl_app. simpl.
  set (acc := foldl (resolveStep fourFrom sixFrom) ([], []) pre).
  unfold resolveStep.
  destruct Hun as [-> | ->]; simpl.
  - repeat split; auto.
  - repeat split; try done; repeat case_bool_decide; auto.
Qed.

Lemma unusable_interface_contributes_nothing_witness :
  resolve "eth0" "br0"
    ([mkInterface "lo" (Some [Addr_IPNet (net.mkIPNet [127; 0; 0; 1] [255; 0; 0; 0])])]
     ++ [mkInterface "eth0" None])
  = resolve "eth0" "br0"
    [mkInterface "lo" (Some [Addr_IPNet (net.mkIPNet [127; 0; 0; 1] [255; 0; 0; 0])])].
Proof.
  destruct (unusable_interface_contributes_nothing "eth0" "br0"
              [mkInterface "lo" (Some [Addr_IPNet (net.mkIPNet [127; 0; 0; 1] [255; 0; 0; 0])])]
              [] (mkInterface "eth0" None)) as [H _].
  - left. reflexivity.
  - apply H. reflexivity.
Defined.

(** When every interface that carries the v4 name is unusable, no IPv4
    address is found; likewise for the v6 name. *)
Lemma resolve_all_unusable (fourFrom sixFrom : string) (ifs : list Interface) :
  (Forall (fun i => Name i = fourFrom -> unusable i) ifs ->
   (resolve fourFrom sixFrom ifs).1 = []) /\
  (Forall (fun i => Name i = sixFrom -> unusable i) ifs ->
   (resolve fourFrom sixFrom ifs).2 = []).
Proof.
  unfold resolve.
  induction ifs as [|i ifs IH] using rev_ind; [done|].
  rewrite foldl_app. simpl.
  set (acc := foldl (resolveStep fourFrom sixFrom) ([], []) ifs) in *.
  destruct IH as [IH4 IH6].
  split; intros [Hifs Hi]%Forall_app; apply Forall_cons in Hi as [Hi _];
    unfold resolveStep; destruct (Addrs i) as [addrs|] eqn:Ha; simpl; auto;
    case_bool_decide as Hname; auto;
    destruct (Hi Hname) as [Hu|Hu]; rewrite Ha in Hu; by simplify_eq.
Qed.

(** ** The signed update *)

Lemma bind_lift_Ok {A B : Type} (a : A) (k : A -> prog B) (t : list event) :
  (lift (Ok a) ≫= k) t = k a t.
Proof. reflexivity. Qed.

Lemma bind_lift_Panic {A B : Type} (msg : string) (k : A -> prog B) (t : list event) :
  (lift (Panic msg) ≫= k) t = (t, Panic msg).
Proof. reflexivity. Qed.

Lemma bind_emit {B : Type} (e : event) (k : unit -> prog B) (t : list event) :
  (emit e ≫= k) t = k tt (t ++ [e]).
Proof. reflexivity. Qed.

Lemma bind_mret {A B : Type} (a : A) (k : A -> prog B) (t : list event) :
  (mret a ≫= k) t = k a t.
Proof. reflexivity. Qed.

Lemma bind_Ok {A B : Type} (m : prog A) (k : A -> prog B)
    (t t' : list event) (a : A) :
  m t = (t', Ok a) -> (m ≫= k) t = k a t'.
Proof. intros H. unfold mbind, prog_bind. by rewrite H. Qed.

Lemma hostLoop_ok (config : rfc2136.Config) (four sixPrefix : net.IP)
    (hosts : list (string * IP)) (finals : list net.IP) :
  mergesTo four sixPrefix hosts finals ->
  forall insertions t,
    rfc2136.hostLoop config four sixPrefix hosts insertions t
    = (t ++ hostLogs config hosts finals,
       Ok (insertions ++ insertionsFor config hosts finals)).
Proof.
  unfold mergesTo, insertionsFor, hostLogs.
  induction 1 as [|[host p] f hosts finals Hf _ IH]; intros insertions t.
  - cbn [rfc2136.hostLoop zip_with concat]. by rewrite !app_nil_r.
  - unfold baseFor in Hf. cbn [fst snd] in Hf.
    cbn [rfc2136.hostLoop zip_with concat fst snd]. unfold hostRecords.
    revert Hf. destruct (Is4 p); intros Hf; rewrite Hf;
      rewrite bind_lift_Ok, bind_emit, IH;
      by rewrite <- !app_assoc.
Qed.

(** A run that gets as far as the exchange: the log lines of the hosts,
    one exchange, and what follows from its answer. *)
Lemma main_run (e : rfc2136.Env) (config : rfc2136.Config)
    (ifs : list Interface) (finals : list net.IP) :
  rfc2136.logCreate e = None ->
  rfc2136.config_load e = Loaded config ->
  rfc2136.interfaces e = inl ifs ->
  mergesTo (resolve (rfc2136.fourFrom e) (rfc2136.sixFrom e) ifs).1
           (resolve (rfc2136.fourFrom e) (rfc2136.sixFrom e) ifs).2
           (rfc2136.Hosts config) finals ->
  let c := dns.mkClient true (rfc2136.TsigSecrets config) in
  let m := rfc2136.buildUpdate config
             (insertionsFor config (rfc2136.Hosts config) finals)
             (rfc2136.now_string e) (rfc2136.now_unix e) in
  let answer := rfc2136.exchange e c m (rfc2136.Server config) in
  run (rfc2136.main e)
  = (hostLogs config (rfc2136.Hosts config) finals
       ++ Exchanged c m (rfc2136.Server config) :: (afterExchange answer).1,
     (afterExchange answer).2).
Proof.
  intros Hlog Hcfg Hifs Hm c m answer.
  unfold run, rfc2136.main. rewrite Hlog, Hcfg, Hifs.
  rewrite !bind_mret.
  destruct (resolve _ _ ifs) as [four sixPrefix] eqn:Hres. cbn [fst snd] in Hm.
  rewrite (bind_Ok _ _ _ _ _ (hostLoop_ok config four sixPrefix _ finals Hm [] [])).
  rewrite bind_emit. cbn [app].
  fold c. fold m. fold answer.
  destruct answer as [reply [err|]]; cbn [afterExchange fst snd].
  - rewrite bind_emit. unfold fatal. by rewrite <- !app_assoc.
  - reflexivity.
Qed.

Lemma exchanges_hostLogs (config : rfc2136.Config) (hosts : list (string * IP))
    (finals : list net.IP) :
  exchanges (hostLogs config hosts finals) = [].
Proof.
  unfold exchanges, hostLogs.
  revert finals. induction hosts as [|h hosts IH]; intros [|f finals]; simpl; auto.
Qed.

Lemma exchanges_afterExchange (answer : option dns.Msg * option string) :
  exchanges (afterExchange answer).1 = [].
Proof. by destruct answer as [reply [err|]]. Qed.

Lemma exchanges_app (t1 t2 : list event) :
  exchanges (t1 ++ t2) = exchanges t1 ++ exchanges t2.
Proof. apply omap_app. Qed.

Lemma exchanges_run (config : rfc2136.Config) (hosts : list (string * IP))
    (finals : list net.IP) (c : dns.Client) (m : dns.Msg) (server : string)
    (answer : option dns.Msg * option string) :
  exchanges (hostLogs config hosts finals
             ++ Exchanged c m server :: (afterExchange answer).1)
  = [(c, m, server)].
Proof.
  rewrite exchanges_app, exchanges_hostLogs.
  change (exchanges (Exchanged c m server :: (afterExchange answer).1))
    with ((c, m, server) :: exchanges (afterExchange answer).1).
  by rewrite exchanges_afterExchange.
Qed.

Lemma insertionsFor_length (config : rfc2136.Config) (hosts : list (string * IP))
    (finals : list net.IP) :
  length hosts = length finals ->
  length (insertionsFor config hosts finals) = (2 * length hosts)%nat.
Proof.
  unfold insertionsFor.
  revert finals. induction hosts as [|h hosts IH]; intros [|f finals] Hlen;
    simplify_eq/=; [done|].
  rewrite IH by done. lia.
Qed.

Lemma insertionsFor_lookup (config : rfc2136.Config) (i : nat) :
  forall hosts finals host p f,
    hosts !! i = Some (host, p) ->
    finals !! i = Some f ->
    insertionsFor config hosts finals !! (2 * i)%nat
      = Some (dns.ANY (dns.mkHeader (joinDomain host (rfc2136.Zone config))
                                    dns.TypeANY dns.ClassANY 0 0)) /\
    insertionsFor config hosts finals !! (2 * i + 1)%nat
      = Some (if Is4 p
              then dns.A (dns.mkHeader (joinDomain host (rfc2136.Zone config))
                            dns.TypeA dns.ClassINET (rfc2136.Ttl config) 0) f
              else dns.AAAA (dns.mkHeader (joinDomain host (rfc2136.Zone config))
                               dns.TypeAAAA dns.ClassINET (rfc2136.Ttl config) 0) f).
Proof.
  unfold insertionsFor.
  induction i as [|i IH]; intros [|h hosts] [|f0 finals] host p f Hh Hf;
    simplify_eq/=; [done|].
  replace (i + S (i + 0))%nat with (S (2 * i)) by lia.
  replace (i + S (i + 0) + 1)%nat with (S (2 * i + 1)) by lia.
  simpl. apply (IH hosts finals host p f Hh Hf).
Qed.

Lemma lastChar_app_dot (s : string) : dns.lastChar (s +:+ ".") = Some "."%char.
Proof.
  induction s as [|c s IH]; [done|].
  change (String c s +:+ ".") with (String c (s +:+ ".")).
  destruct (s +:+ ".") eqn:Hs; [by destruct s|]. exact IH.
Qed.

Lemma IsFqdn_Fqdn (s : string) : dns.IsFqdn (dns.Fqdn s) = true.
Proof.
  unfold dns.Fqdn. destruct (dns.IsFqdn s) eqn:Hs; [done|].
  unfold dns.IsFqdn. rewrite lastChar_app_dot. by apply bool_decide_eq_true_2.
Qed.

Lemma ownerName_qualified (host zone : string) :
  dns.IsFqdn (if bool_decide (host = "@") then dns.Fqdn zone
              else dns.Fqdn (dns.Fqdn host +:+ zone)) = true.
Proof. case_bool_decide; apply IsFqdn_Fqdn. Qed.

(** C6.  A run that reaches the exchange sends one message whose update
    section holds, for host number [i], the delete-ANY record of its
    owner name at position [2i] and its A or AAAA record, under the same
    owner name and with the configured TTL, at position [2i+1]; the TXT
    record of the zone apex, carrying the time of the run, comes last,
    at position [2N].  That makes [2N+1] records for [N] hosts.  The
    owner name of a host is the fully-qualified zone for ["@"] and the
    host, with a dot after it if it has none, followed by the zone
    otherwise; it is always fully qualified. *)
Theorem update_carries_2N_plus_1_records
    (e : rfc2136.Env) (config : rfc2136.Config)
    (ifs : list Interface) (finals : list net.IP) :
  rfc2136.logCreate e = None ->
  rfc2136.config_load e = Loaded config ->
  rfc2136.interfaces e = inl ifs ->
  mergesTo (resolve (rfc2136.fourFrom e) (rfc2136.sixFrom e) ifs).1
           (resolve (rfc2136.fourFrom e) (rfc2136.sixFrom e) ifs).2
           (rfc2136.Hosts config) finals ->
  exists c m server,
    exchanges (run (rfc2136.main e)).1 = [(c, m, server)] /\
    dns.Ns m = insertionsFor config (rfc2136.Hosts config) finals
               ++ [apexTXT config (rfc2136.now_string e)] /\
    length (dns.Ns m) = (2 * length (rfc2136.Hosts config) + 1)%nat /\
    (forall i host p f,
       rfc2136.Hosts config !! i = Some (host, p) ->
       finals !! i = Some f ->
       exists name,
         name = (if bool_decide (host = "@")
                 then dns.Fqdn (rfc2136.Zone config)
                 else dns.Fqdn (dns.Fqdn host +:+ rfc2136.Zone config)) /\
         dns.IsFqdn name = true /\
         dns.Ns m !! (2 * i)%nat
           = Some (dns.ANY (dns.mkHeader name dns.TypeANY dns.ClassANY 0 0)) /\
         dns.Ns m !! (2 * i + 1)%nat
           = Some (if Is4 p
                   then dns.A (dns.mkHeader name dns.TypeA dns.ClassINET
                                 (rfc2136.Ttl config) 0) f
                   else dns.AAAA (dns.mkHeader name dns.TypeAAAA dns.ClassINET
                                    (rfc2136.Ttl config) 0) f)) /\
    dns.Ns m !! (2 * length (rfc2136.Hosts config))%nat
      = Some (dns.TXT (dns.mkHeader (dns.Fqdn (rfc2136.Zone config)) dns.TypeTXT
                         dns.ClassINET (rfc2136.Ttl config) 0)
                      [rfc2136.now_string e]).
Proof.
  intros Hlog Hcfg Hifs Hm.
  pose proof (Forall2_length _ _ _ Hm) as Hlen.
  pose proof (insertionsFor_length config _ _ Hlen) as Hins.
  rewrite (main_run e config ifs finals Hlog Hcfg Hifs Hm).
  eexists _, _, _. cbn [fst].
  split; [apply exchanges_run|].
  cbn [rfc2136.buildUpdate dns.SetTsig dns.setNs dns.SetUpdate dns.Ns].
  split; [done|].
  split; [rewrite length_app, Hins; simpl; lia|].
  split.
  - intros i host p f Hh Hf.
    destruct (insertionsFor_lookup config i _ _ host p f Hh Hf) as [H0 H1].
    unfold joinDomain in H0, H1.
    eexists. split; [reflexivity|].
    split; [apply ownerName_qualified|].
    split; rewrite lookup_app_l; try done.
    + apply lookup_lt_Some in H0. done.
    + apply lookup_lt_Some in H1. done.
  - rewrite <- Hins. rewrite list_lookup_middle by done. done.
Qed.

Lemma update_carries_2N_plus_1_records_witness :
  exists c m server,
    exchanges (run (rfc2136.main exampleEnv)).1 = [(c, m, server)] /\
    dns.Ns m
    = [dns.ANY (dns.mkHeader "host1.fully.qualified.update.zone."
                             dns.TypeANY dns.ClassANY 0 0);
       dns.AAAA (dns.mkHeader "host1.fully.qualified.update.zone."
                              dns.TypeAAAA dns.ClassINET 300 0)
                [32; 1; 4; 112; 31; 14; 8; 63; 18; 52; 18; 52; 18; 52; 18; 52];
       dns.ANY (dns.mkHeader "fully.qualified.update.zone."
                             dns.TypeANY dns.ClassANY 0 0);
       dns.A (dns.mkHeader "fully.qualified.update.zone."
                           dns.TypeA dns.ClassINET 300 0)
             (net.IPv4 198 100 123 139);
       dns.TXT (dns.mkHeader "fully.qualified.update.zone."
                             dns.TypeTXT dns.ClassINET 300 0)
               ["2015-06-01 12:00:00 +0000 UTC"]] /\
    length (dns.Ns m) = 5%nat.
Proof.
  destruct (update_carries_2N_plus_1_records exampleEnv exampleConfig
              exampleInterfaces exampleFinals)
    as (c & m & server & Hex & HNs & Hlen & _).
  - reflexivity.
  - reflexivity.
  - reflexivity.
  - repeat constructor.
  - exists c, m, server. split; [exact Hex|]. split; [|exact Hlen].
    rewrite HNs. vm_compute. reflexivity.
Defined.

(** C7.  A run that reaches the exchange sends exactly one message, to
    the configured server, with the client that holds the configured
    secrets.  The message is an UPDATE for the zone and carries one TSIG
    record for the configured key: algorithm HMAC-MD5, fudge 300, signed
    at the Unix time of the run.  When the exchange returns an error the
    reply is logged, then the error, and the run ends by
    [logger.Fatal]; nothing is sent again. *)
Theorem update_is_signed_and_sent_once
    (e : rfc2136.Env) (config : rfc2136.Config)
    (ifs : list Interface) (finals : list net.IP) :
  rfc2136.logCreate e = None ->
  rfc2136.config_load e = Loaded config ->
  rfc2136.interfaces e = inl ifs ->
  mergesTo (resolve (rfc2136.fourFrom e) (rfc2136.sixFrom e) ifs).1
           (resolve (rfc2136.fourFrom e) (rfc2136.sixFrom e) ifs).2
           (rfc2136.Hosts config) finals ->
  exists m,
    exchanges (run (rfc2136.main e)).1
      = [(dns.mkClient true (rfc2136.TsigSecrets config), m, rfc2136.Server config)] /\
    dns.Opcode m = dns.OpcodeUpdate /\
    dns.Question_ m
      = [dns.mkQuestion (dns.Fqdn (rfc2136.Zone config)) dns.TypeSOA dns.ClassINET] /\
    dns.Extra m
      = [dns.TSIG (dns.mkHeader (rfc2136.Key config) dns.TypeTSIG dns.ClassANY 0 0)
                  dns.HmacMD5 300 (rfc2136.now_unix e)] /\
    (forall reply err,
       rfc2136.exchange e (dns.mkClient true (rfc2136.TsigSecrets config)) m
                        (rfc2136.Server config) = (reply, Some err) ->
       (run (rfc2136.main e)).2 = Fatal "Failed to update DNS sever:" /\
       exists before,
         (run (rfc2136.main e)).1
         = before ++ [Exchanged (dns.mkClient true (rfc2136.TsigSecrets config)) m
                                (rfc2136.Server config);
                      LogReply reply;
                      LogFatal "Failed to update DNS sever:" err]) /\
    (forall reply,
       rfc2136.exchange e (dns.mkClient true (rfc2136.TsigSecrets config)) m
                        (rfc2136.Server config) = (reply, None) ->
       (run (rfc2136.main e)).2 = Ok tt).
Proof.
  intros Hlog Hcfg Hifs Hm.
  rewrite (main_run e config ifs finals Hlog Hcfg Hifs Hm).
  eexists. cbn [fst snd].
  split; [apply exchanges_run|].
  do 3 (split; [reflexivity|]).
  split.
  - intros reply err ->. split; [reflexivity|]. eexists. reflexivity.
  - intros reply ->. reflexivity.
Qed.

Lemma update_is_signed_and_sent_once_witness :
  exists m,
    exchanges (run (rfc2136.main exampleEnv)).1
      = [(dns.mkClient true [("update.key.", "update.secret.")], m, "192.0.2.1:53")] /\
    dns.Extra m
      = [dns.TSIG (dns.mkHeader "update.key." dns.TypeTSIG dns.ClassANY 0 0)
                  dns.HmacMD5 300 1433160000] /\
    (run (rfc2136.main exampleEnv)).2 = Fatal "Failed to update DNS sever:".
Proof.
  destruct (update_is_signed_and_sent_once exampleEnv exampleConfig
              exampleInterfaces exampleFinals)
    as (m & Hex & _ & _ & Hextra & Herr & _).
  - reflexivity.
  - reflexivity.
  - reflexivity.
  - repeat constructor.
  - exists m. split; [exact Hex|]. split; [exact Hextra|].
    apply (Herr None "i/o timeout"). reflexivity.
Defined.

(** A host whose family has no base address stops the run by a panic
    before anything is sent. *)
Lemma hostLoop_never_exchanges (config : rfc2136.Config) (four sixPrefix : net.IP)
    (hosts : list (string * IP)) :
  forall insertions t,
    exchanges (rfc2136.hostLoop config four sixPrefix hosts insertions t).1
    = exchanges t.
Proof.
  induction hosts as [|[host p] hosts IH]; intros insertions t; [done|].
  cbn [rfc2136.hostLoop].
  destruct (Is4 p).
  - destruct (ApplyIPToMask p four) as [f|msg|msg]; [|done..].
    rewrite bind_lift_Ok, bind_emit, IH, exchanges_app. cbn. by rewrite app_nil_r.
  - destruct (ApplyIPToMask p sixPrefix) as [f|msg|msg]; [|done..].
    rewrite bind_lift_Ok, bind_emit, IH, exchanges_app. cbn. by rewrite app_nil_r.
Qed.

Lemma ApplyIPToMask_not_Fatal (p : IP) (base : net.IP) (msg : string) :
  ApplyIPToMask p base <> Fatal msg.
Proof.
  unfold ApplyIPToMask.
  generalize (net.To16 (net.Mask base (mask p))) as newIp.
  generalize 0%nat as idx.
  induction (net.To16 (ip p)) as [|v rest IH]; intros idx newIp; [done|].
  cbn [orInto]. case_match; [apply IH|done].
Qed.

Lemma hostLoop_missing_base (config : rfc2136.Config) (four sixPrefix : net.IP)
    (hosts : list (string * IP)) (host : string) (p : IP) :
  (host, p) ∈ hosts ->
  net.To16 (ip p) <> [] ->
  baseFor four sixPrefix p = [] ->
  forall insertions t,
    exists msg,
      (rfc2136.hostLoop config four sixPrefix hosts insertions t).2 = Panic msg.
Proof.
  intros Hin Hp Hbase.
  induction hosts as [|[host' p'] hosts IH]; intros insertions t.
  { by apply elem_of_nil in Hin. }
  cbn [rfc2136.hostLoop].
  apply elem_of_cons in Hin as [Heq|Hin].
  - simplify_eq. unfold baseFor in Hbase.
    destruct (Is4 p'); rewrite Hbase, (merge_nil_base p' Hp),
      bind_lift_Panic; by eexists.
  - destruct (Is4 p').
    + destruct (ApplyIPToMask p' four) as [f|msg|msg] eqn:Hf.
      * rewrite bind_lift_Ok, bind_emit. by apply IH.
      * rewrite bind_lift_Panic. by eexists.
      * by apply ApplyIPToMask_not_Fatal in Hf.
    + destruct (ApplyIPToMask p' sixPrefix) as [f|msg|msg] eqn:Hf.
      * rewrite bind_lift_Ok, bind_emit. by apply IH.
      * rewrite bind_lift_Panic. by eexists.
      * by apply ApplyIPToMask_not_Fatal in Hf.
Qed.

(** ** Runs of the Azure updater *)

Section AzureRuns.

Variable client : azure.Request -> option string.
Variable updater : azure.azureDnsUpdater.
Variables four sixPrefix : net.IP.

Lemma sum_list_app (l1 l2 : list nat) :
  sum_list (l1 ++ l2) = (sum_list l1 + sum_list l2)%nat.
Proof. induction l1 as [|x l1 IH]; cbn; [done|]. rewrite IH. lia. Qed.

Lemma sum_middle (f : azure.goroutine -> nat) (l1 l2 : list azure.goroutine)
    (g : azure.goroutine) :
  sum_list (f <$> (l1 ++ g :: l2))
  = (sum_list (f <$> l1) + f g + sum_list (f <$> l2))%nat.
Proof. rewrite fmap_app, sum_list_app. cbn. lia. Qed.

Lemma omap_middle {B : Type} (f : azure.goroutine -> option B)
    (l1 l2 : list azure.goroutine) (g : azure.goroutine) :
  omap f (l1 ++ g :: l2) = omap f l1 ++ option_list (f g) ++ omap f l2.
Proof. rewrite omap_app. cbn. by destruct (f g). Qed.

Lemma subs_middle (l1 l2 : list azure.goroutine) (sub : azure.submission)
    (pc1 pc2 : azure.gpc) :
  azure.g_sub <$> (l1 ++ azure.mkGoroutine sub pc1 :: l2)
  = azure.g_sub <$> (l1 ++ azure.mkGoroutine sub pc2 :: l2).
Proof. by rewrite !fmap_app. Qed.

Lemma requestsOf_snoc (t : list azure.aevent) (e : azure.aevent) :
  requestsOf (t ++ [e])
  = requestsOf t ++ match e with azure.ARequest r => [r] | _ => [] end.
Proof. unfold requestsOf. rewrite omap_app. by destruct e. Qed.

Lemma errorsOf_snoc (t : list azure.aevent) (e : azure.aevent) :
  errorsOf (t ++ [e])
  = errorsOf t ++ match e with azure.AError h err => [(h, err)] | _ => [] end.
Proof. unfold errorsOf. rewrite omap_app. by destruct e. Qed.

Lemma invariant_init (hosts : list (string * IP)) (subs : list azure.submission) :
  submitsTo four sixPrefix hosts subs ->
  invariant client updater four sixPrefix subs (azure.init hosts).
Proof.
  intros Hs. unfold invariant, azure.init. cbn.
  split; [by exists subs|]. repeat split; done.
Qed.

Lemma Forall_middle {A : Type} (P : A -> Prop) (l1 l2 : list A) (x y : A) :
  Forall P (l1 ++ x :: l2) -> P y -> Forall P (l1 ++ y :: l2).
Proof.
  intros [H1 [_ H2]%Forall_cons]%Forall_app Hy.
  apply Forall_app. split; [done|]. by constructor.
Qed.

Lemma perm_snoc_middle {A : Type} (t l1 l2 : list A) (x : A) :
  t ≡ₚ l1 ++ l2 -> t ++ [x] ≡ₚ l1 ++ x :: l2.
Proof.
  intros Ht. etrans; [symmetry; apply Permutation_cons_append|].
  rewrite Ht. apply Permutation_middle.
Qed.

Lemma invariant_step (subs : list azure.submission) (s s' : azure.state) :
  invariant client updater four sixPrefix subs s ->
  azure.step client updater four sixPrefix s s' ->
  invariant client updater four sixPrefix subs s'.
Proof.
  intros (Hbatch & Hwg & Hcalled & Hreq & Herr & Hexit) Hstep.
  destruct Hbatch as (rest & Hahead & Hsubs).
  unfold invariant.
  destruct Hstep; cbn [azure.pc azure.pool azure.wg azure.trace] in *.
  - (* head of the loop, merge succeeded *)
    cbn in Hahead. unfold submitsTo in Hahead.
    destruct rest as [|sub' rest]; inversion Hahead; simplify_eq.
    assert (sub' = sub) as -> by congruence.
    rewrite requestsOf_snoc, errorsOf_snoc, !app_nil_r.
    split_and!; try done; try (by intros ->).
    exists (sub :: rest). split; [|done]. cbn. by exists rest.
  - (* head of the loop, merge panicked: excluded by the batch *)
    cbn in Hahead. unfold submitsTo in Hahead.
    destruct rest as [|sub' rest]; inversion Hahead; simplify_eq. congruence.
  - (* wg.Add(1) *)
    split_and!; try done; try (by intros ->).
    + by exists rest.
    + lia.
  - (* go *)
    destruct Hahead as (rest' & -> & Hahead).
    rewrite !fmap_app, sum_list_app, !omap_app. cbn.
    rewrite !app_nil_r.
    split_and!; try done; try (by intros ->).
    + exists rest'. split; [done|]. by rewrite <- app_assoc.
    + lia.
    + apply Forall_app. split; [done|]. by constructor.
  - (* end of the loop *)
    cbn in Hahead. apply Forall2_nil_inv_l in Hahead as ->.
    split_and!; try done; try (by intros ->). by exists [].
  - (* wg.Wait() returns *)
    split_and!; try done; try (by intros ->). by exists rest.
  - (* CreateOrUpdate returns *)
    rewrite (subs_middle l1 l2 sub _ azure.GStart).
    rewrite ?sum_middle, ?omap_middle in *.
    rewrite ?requestsOf_snoc, ?errorsOf_snoc, ?app_nil_r.
    cbn in *.
    split_and!; try done; try (by intros ->).
    + exists rest. split; [by destruct pc|done].
    + eapply Forall_middle; [exact Hcalled|]. cbn. by intros err [= <-].
    + by apply perm_snoc_middle.
  - (* the error is logged *)
    rewrite (subs_middle l1 l2 sub _ (azure.GCalled (Some err))).
    assert (Hg : Some err = client (azure.request updater sub)).
    { apply Forall_app in Hcalled as [_ [Hg _]%Forall_cons]. by apply Hg. }
    rewrite ?sum_middle, ?omap_middle in *.
    rewrite ?requestsOf_snoc, ?errorsOf_snoc, ?app_nil_r.
    cbn in *. unfold failure. rewrite <- Hg. cbn.
    split_and!; try done; try (by intros ->).
    + exists rest. split; [by destruct pc|done].
    + eapply Forall_middle; [exact Hcalled|]. done.
    + by apply perm_snoc_middle.
  - (* no error *)
    rewrite (subs_middle l1 l2 sub _ (azure.GCalled None)).
    assert (Hg : None = client (azure.request updater sub)).
    { apply Forall_app in Hcalled as [_ [Hg _]%Forall_cons]. by apply Hg. }
    rewrite ?sum_middle, ?omap_middle in *.
    cbn in *. unfold failure. rewrite <- Hg. cbn.
    split_and!; try done; try (by intros ->).
    + exists rest. split; [by destruct pc|done].
    + eapply Forall_middle; [exact Hcalled|]. done.
  - (* wg.Done() *)
    rewrite (subs_middle l1 l2 sub _ azure.GBeforeDone).
    rewrite ?sum_middle, ?omap_middle in *.
    cbn in *.
    split_and!; try done; try (by intros ->).
    + exists rest. split; [by destruct pc|done].
    + destruct pc; lia.
    + eapply Forall_middle; [exact Hcalled|]. done.
  - (* wg.Done() on a zero counter: excluded by the count *)
    exfalso. rewrite sum_middle in Hwg. cbn in Hwg. destruct pc; lia.
Qed.

Lemma measure_step (subs : list azure.submission) (s s' : azure.state) :
  invariant client updater four sixPrefix subs s ->
  azure.step client updater four sixPrefix s s' ->
  (measure s' + 1 = measure s)%nat.
Proof.
  intros (Hbatch & Hwg & _) Hstep.
  destruct Hbatch as (rest & Hahead & Hsubs).
  unfold measure.
  destruct Hstep; cbn [azure.pc azure.pool azure.wg azure.trace mainWeight length] in *;
    rewrite ?sum_middle, ?fmap_app, ?sum_list_app in *; cbn in *; try lia.
  - (* the merge does not panic *)
    unfold submitsTo in Hahead.
    destruct rest as [|sub' rest]; inversion Hahead; simplify_eq. congruence.
  - (* the counter is positive at wg.Done() *)
    destruct pc; lia.
Qed.

Lemma exists_running (pool : list azure.goroutine) :
  sum_list (running <$> pool) <> 0%nat ->
  exists l1 g l2, pool = l1 ++ g :: l2 /\ azure.g_pc g <> azure.GExited.
Proof.
  induction pool as [|g pool IH]; [done|]. cbn. intros Hsum.
  destruct (decide (running g = 0%nat)) as [Hg|Hg].
  - destruct IH as (l1 & g' & l2 & -> & Hg'); [lia|].
    by exists (g :: l1), g', l2.
  - exists [], g, pool. split; [done|].
    intros Hpc. unfold running in Hg. by rewrite Hpc in Hg.
Qed.

(** A live goroutine can always take its next step. *)
Lemma goroutine_can_step (pc : azure.mainpc) (l1 l2 : list azure.goroutine)
    (g : azure.goroutine) (wg : Z) (trace : list azure.aevent) :
  azure.alive (azure.mkState pc (l1 ++ g :: l2) wg trace) = true ->
  azure.g_pc g <> azure.GExited ->
  exists s', azure.step client updater four sixPrefix
               (azure.mkState pc (l1 ++ g :: l2) wg trace) s'.
Proof.
  intros Halive Hg. destruct g as [sub [|[err|]| |]]; [..|done].
  - eexists. by apply azure.step_call.
  - eexists. by apply azure.step_err.
  - eexists. by apply azure.step_noerr.
  - destruct (decide (0 < wg)).
    + eexists. by apply azure.step_done.
    + eexists. apply azure.step_done_negative; [done|lia].
Qed.

Lemma progress (subs : list azure.submission) (s : azure.state) :
  invariant client updater four sixPrefix subs s ->
  azure.pc s <> azure.MExited ->
  exists s', azure.step client updater four sixPrefix s s'.
Proof.
  intros (Hbatch & Hwg & _) Hpc.
  destruct Hbatch as (rest & Hahead & Hsubs).
  destruct s as [pc pool wg trace]. cbn in *.
  destruct pc as [[|h hosts]|sub hosts|sub hosts| | |msg]; try done.
  - eexists. apply azure.step_loop_end.
  - unfold submitsTo in Hahead.
    destruct rest as [|sub rest]; inversion Hahead; simplify_eq.
    eexists. by apply azure.step_loop_ok.
  - eexists. apply azure.step_add.
  - eexists. apply azure.step_go.
  - destruct (decide (sum_list (running <$> pool) = 0%nat)) as [Hz|Hnz].
    + rewrite Hz in Hwg. cbn in Hwg. subst wg.
      eexists. apply azure.step_wait.
    + destruct (exists_running pool Hnz) as (l1 & g & l2 & -> & Hg).
      by apply goroutine_can_step.
Qed.

Lemma invariant_nsteps (subs : list azure.submission) (n : nat)
    (s0 s : azure.state) :
  invariant client updater four sixPrefix subs s0 ->
  nsteps (azure.step client updater four sixPrefix) n s0 s ->
  invariant client updater four sixPrefix subs s /\
  (n + measure s = measure s0)%nat.
Proof.
  intros Hinv Hsteps. induction Hsteps as [|n x y z Hxy _ IH]; [done|].
  pose proof (measure_step subs x y Hinv Hxy) as Hm.
  destruct IH as [Hz Hmz]; [by eapply invariant_step|].
  split; [done|]. lia.
Qed.

Lemma all_exited (pool : list azure.goroutine) :
  sum_list (running <$> pool) = 0%nat ->
  Forall (fun g => azure.g_pc g = azure.GExited) pool.
Proof.
  induction pool as [|g pool IH]; [done|]. cbn. intros Hsum.
  constructor; [|apply IH; lia].
  destruct g as [sub []]; cbn in *; try done; lia.
Qed.

Lemma omap_all_exited {B : Type} (f : azure.submission -> option B)
    (h : azure.goroutine -> option B) (pool : list azure.goroutine) :
  (forall x, azure.g_pc x = azure.GExited -> h x = f (azure.g_sub x)) ->
  Forall (fun x => azure.g_pc x = azure.GExited) pool ->
  omap h pool = omap f (azure.g_sub <$> pool).
Proof.
  intros Hh. induction 1 as [|x pool Hx _ IH]; [done|].
  cbn. by rewrite (Hh x Hx), IH.
Qed.

End AzureRuns.

Lemma sentBy_exited (updater : azure.azureDnsUpdater) (g : azure.goroutine) :
  azure.g_pc g = azure.GExited ->
  sentBy updater g = Some (azure.request updater (azure.g_sub g)).
Proof. intros Hg. unfold sentBy. by rewrite Hg. Qed.

Lemma loggedBy_exited (client : azure.Request -> option string)
    (updater : azure.azureDnsUpdater) (g : azure.goroutine) :
  azure.g_pc g = azure.GExited ->
  loggedBy client updater g = failure client updater (azure.g_sub g).
Proof. intros Hg. unfold loggedBy. by rewrite Hg. Qed.

(** C8.  Take a batch of [N] hosts whose merges succeed, and any state
    [s] that a run of the updater reaches after [n] steps, under any
    interleaving of the main goroutine and the goroutines it starts and
    whichever requests fail.  Once the host loop is over there is one
    goroutine per host, in order.  When main has returned from the wait,
    every goroutine has returned, the requests sent are those of all the
    hosts, and the failures logged are those of exactly the hosts whose
    request failed.  No run panics; until main has returned some step
    is always enabled; every step uses up one of the [6N+2] steps of
    the run, so main returns after exactly [6N+2] steps and not
    before. *)
Theorem every_host_runs_to_the_barrier
    (client : azure.Request -> option string) (updater : azure.azureDnsUpdater)
    (four sixPrefix : net.IP) (hosts : list (string * IP))
    (subs : list azure.submission) (n : nat) (s : azure.state) :
  submitsTo four sixPrefix hosts subs ->
  nsteps (azure.step client updater four sixPrefix) n (azure.init hosts) s ->
  (azure.pc s = azure.MWait \/ azure.pc s = azure.MExited ->
   azure.g_sub <$> azure.pool s = subs) /\
  (azure.pc s = azure.MExited ->
   Forall (fun g => azure.g_pc g = azure.GExited) (azure.pool s) /\
   requestsOf (azure.trace s) ≡ₚ azure.request updater <$> subs /\
   errorsOf (azure.trace s) ≡ₚ omap (failure client updater) subs) /\
  (forall msg, azure.pc s <> azure.MPanicked msg) /\
  (azure.pc s <> azure.MExited ->
   exists s', azure.step client updater four sixPrefix s s') /\
  (n + measure s = 6 * length hosts + 2)%nat /\
  (azure.pc s = azure.MExited <-> n = (6 * length hosts + 2)%nat).
Proof.
  intros Hsubs Hsteps.
  destruct (invariant_nsteps client updater four sixPrefix subs n _ s
              (invariant_init client updater four sixPrefix hosts subs Hsubs) Hsteps)
    as [Hinv Hmeasure].
  change (measure (azure.init hosts)) with (6 * length hosts + 2 + 0)%nat in Hmeasure.
  pose proof (progress client updater four sixPrefix subs s Hinv) as Hprogress.
  destruct Hinv as ((rest & Hahead & Hbatch) & Hwg & Hcalled & Hreq & Herr & Hexit).
  assert (Hover : azure.pc s = azure.MWait \/ azure.pc s = azure.MExited ->
                  azure.g_sub <$> azure.pool s = subs).
  { intros Hpc. assert (rest = []) as ->.
    { destruct Hpc as [Hpc|Hpc]; rewrite Hpc in Hahead; exact Hahead. }
    by rewrite app_nil_r in Hbatch. }
  assert (Hdone : azure.pc s = azure.MExited ->
                  Forall (fun g => azure.g_pc g = azure.GExited) (azure.pool s)).
  { intros Hpc. rewrite (Hexit Hpc), Hpc in Hwg. apply all_exited. lia. }
  split_and!.
  - exact Hover.
  - intros Hpc. specialize (Hdone Hpc).
    split; [done|]. rewrite <- (Hover (or_intror Hpc)).
    split.
    + rewrite Hreq.
      rewrite (omap_all_exited (fun sub => Some (azure.request updater sub))
                 _ _ (sentBy_exited updater) Hdone).
      clear. induction (azure.g_sub <$> azure.pool s) as [|x l IH]; [done|].
      cbn. by rewrite IH.
    + rewrite Herr.
      by rewrite (omap_all_exited (failure client updater) _ _
                    (loggedBy_exited client updater) Hdone).
  - intros msg Hpc. by rewrite Hpc in Hahead.
  - exact Hprogress.
  - lia.
  - split.
    + intros Hpc. specialize (Hdone Hpc).
      unfold measure in Hmeasure. rewrite Hpc in Hmeasure. cbn in Hmeasure.
      assert (sum_list (weight <$> azure.pool s) = 0%nat) as Hw.
      { clear -Hdone. induction Hdone as [|g l Hg _ IH]; [done|].
        cbn. unfold weight at 1. rewrite Hg. exact IH. }
      lia.
    + intros ->. assert (measure s = 0%nat) as Hz by lia.
      unfold measure in Hz.
      destruct (azure.pc s) eqn:Hpc; cbn in Hz, Hahead; try lia; done.
Qed.

Lemma every_host_runs_to_the_barrier_witness :
  exists s', azure.step exampleClient exampleUpdater
               [198; 100; 123; 139]
               [32; 1; 4; 112; 31; 14; 8; 63; 0; 0; 0; 0; 0; 0; 0; 0]
               (azure.init exampleHosts) s'.
Proof.
  destruct (every_host_runs_to_the_barrier exampleClient exampleUpdater
              [198; 100; 123; 139]
              [32; 1; 4; 112; 31; 14; 8; 63; 0; 0; 0; 0; 0; 0; 0; 0]
              exampleHosts exampleSubmissions 0 (azure.init exampleHosts))
    as (_ & _ & _ & Hprogress & _).
  - repeat constructor.
  - constructor.
  - apply Hprogress. discriminate.
Defined.

(** ** The TTL of the published records *)

(** C4, on the code.  With [ttl: 600] in the configuration the signed
    update publishes the A record of the apex with a TTL of 600, but
    the request of the Azure updater for the same host carries 300: the
    TTL of the configuration is parsed and never read. *)
Theorem azure_request_ignores_configured_ttl :
  (run (azure.start exampleAzureEnv)).2
    = Ok (azure.mkStarted exampleUpdater [198; 100; 123; 139]
            [32; 1; 4; 112; 31; 14; 8; 63; 0; 0; 0; 0; 0; 0; 0; 0] exampleHosts) /\
  azure.submit [198; 100; 123; 139]
      [32; 1; 4; 112; 31; 14; 8; 63; 0; 0; 0; 0; 0; 0; 0; 0] ("@", exampleApex)
    = Ok (azure.mkSubmission "@" "A" (net.IPv4 198 100 123 139)) /\
  azure.Ttl exampleAzureConfig = 600 /\
  azure.req_TTL (azure.request exampleUpdater
                   (azure.mkSubmission "@" "A" (net.IPv4 198 100 123 139))) = 300 /\
  (rfc2136.hostLoop exampleConfig600 [198; 100; 123; 139]
     [32; 1; 4; 112; 31; 14; 8; 63; 0; 0; 0; 0; 0; 0; 0; 0]
     [("@", exampleApex)] [] []).2
    = Ok [dns.ANY (dns.mkHeader "fully.qualified.update.zone." dns.TypeANY dns.ClassANY 0 0);
          dns.A (dns.mkHeader "fully.qualified.update.zone." dns.TypeA dns.ClassINET 600 0)
                (net.IPv4 198 100 123 139)].
Proof. repeat split; vm_compute; reflexivity. Qed.

(** ** Further properties: prefix lengths *)

Lemma partial_byte_bit (n : Z) (k : nat) :
  0 <= n < 8 -> (k < 8)%nat ->
  Z.testbit (Z.lxor 255 (Z.shiftr 255 n)) (7 - Z.of_nat k) = (Z.of_nat k <? n).
Proof.
  intros Hn Hk.
  assert (n = 0 \/ n = 1 \/ n = 2 \/ n = 3 \/ n = 4 \/ n = 5 \/ n = 6 \/ n = 7)
    as Hcases by lia.
  do 8 (destruct k as [|k]; [destruct_or!; subst; reflexivity|]). lia.
Qed.

Lemma full_byte_bit (k : nat) :
  (k < 8)%nat -> Z.testbit 255 (7 - Z.of_nat k) = true.
Proof. intros Hk. apply testbit_255. lia. Qed.

Lemma zero_byte_bit (k : Z) : Z.testbit 0 k = false.
Proof. apply Z.testbit_0_l. Qed.

(** The mask of a prefix length has exactly its leading bits set. *)
Lemma CIDRMask_loop_bit (l : nat) :
  forall (n : Z) (q : nat),
    0 <= n <= 8 * Z.of_nat l -> (q < 8 * l)%nat ->
    prefixBit (net.CIDRMask_loop l n) q = (Z.of_nat q <? n).
Proof.
  induction l as [|l IH]; intros n q Hn Hq; [lia|].
  unfold prefixBit in *. cbn [net.CIDRMask_loop].
  destruct (decide (q < 8)%nat) as [Hlt|Hge].
  - rewrite (Nat.div_small q 8), (Nat.mod_small q 8) by done.
    destruct (8 <=? n) eqn:H8; cbn [lookup_total list_lookup_total].
    + apply Z.leb_le in H8. rewrite full_byte_bit by done.
      symmetry. apply Z.ltb_lt. lia.
    + apply Z.leb_gt in H8. apply partial_byte_bit; [lia|done].
  - assert (q = 8 + (q - 8))%nat as Hq8 by lia.
    assert ((q / 8)%nat = S ((q - 8) / 8)) as Hdiv.
    { rewrite Hq8 at 1. replace (8 + (q - 8))%nat with (1 * 8 + (q - 8))%nat by lia.
      rewrite Nat.div_add_l by done. lia. }
    assert ((q mod 8)%nat = ((q - 8) mod 8)%nat) as Hmod.
    { rewrite Hq8 at 1. replace (8 + (q - 8))%nat with ((q - 8) + 1 * 8)%nat by lia.
      by rewrite Nat.Div0.mod_add. }
    rewrite Hdiv, Hmod.
    destruct (8 <=? n) eqn:H8; cbn [lookup_total list_lookup_total].
    + apply Z.leb_le in H8. rewrite IH by lia.
      destruct (Z.ltb_spec (Z.of_nat (q - 8)) (n - 8)),
               (Z.ltb_spec (Z.of_nat q) n); try done; lia.
    + apply Z.leb_gt in H8. rewrite IH by lia.
      destruct (Z.ltb_spec (Z.of_nat (q - 8)) 0),
               (Z.ltb_spec (Z.of_nat q) n); try done; lia.
Qed.

Lemma prefixBit_shift (pre a : list Z) (q : nat) :
  prefixBit (pre ++ a) (8 * length pre + q) = prefixBit a q.
Proof.
  unfold prefixBit.
  assert (((8 * length pre + q) / 8)%nat = (length pre + q / 8)%nat) as ->.
  { rewrite (Nat.mul_comm 8). by rewrite Nat.div_add_l. }
  assert (((8 * length pre + q) mod 8)%nat = (q mod 8)%nat) as ->.
  { rewrite (Nat.mul_comm 8), Nat.add_comm. by rewrite Nat.Div0.mod_add. }
  rewrite lookup_total_app_r by lia.
  by replace (length pre + q / 8 - length pre)%nat with (q / 8)%nat by lia.
Qed.

(** The mask of a parsed partial address is the mask of the prefix
    length written in the literal. *)
Lemma UnmarshalYAML_mask (raw : string) (p : IP) :
  UnmarshalYAML (Some raw) = Some p ->
  exists l, (l = 4%nat \/ l = 16%nat) /\
    length (mask p) = l /\
    0 <= literalPrefix raw <= 8 * Z.of_nat l /\
    mask p = net.CIDRMask_loop l (literalPrefix raw).
Proof.
  unfold UnmarshalYAML. change (default "" (Some raw)) with raw.
  unfold literalPrefix, net.ParseCIDR. intros H.
  destruct (net.indexByte raw "/") as [i|]; [|done].
  destruct (net.dtoi (net.strDrop (S i) raw)) as [[ones c] ok]. cbn [fst].
  assert (Hgen : forall (iplen : nat) (a0 : net.IP),
    (iplen = 4%nat \/ iplen = 16%nat) ->
    match
      (if bool_decide (a0 = []) || negb ok
          || negb (bool_decide (c = String.length (net.strDrop (S i) raw)))
          || (ones <? 0) || (8 * Z.of_nat iplen <? ones)
       then None
       else Some (a0, net.mkIPNet (net.Mask a0 (net.CIDRMask ones (8 * Z.of_nat iplen)))
                                  (net.CIDRMask ones (8 * Z.of_nat iplen))))
    with
    | Some (ip, ipnet) => Some (mkIP ip (net.IPNet_Mask ipnet))
    | None => None
    end = Some p ->
    exists l, (l = 4%nat \/ l = 16%nat) /\
      length (mask p) = l /\
      0 <= ones <= 8 * Z.of_nat l /\
      mask p = net.CIDRMask_loop l ones).
  { intros iplen a0 Hlen Hres.
    destruct (bool_decide (a0 = []) || negb ok
              || negb (bool_decide (c = String.length (net.strDrop (S i) raw))));
      [done|]. cbn [orb] in Hres.
    destruct (ones <? 0) eqn:Hneg; [done|]. cbn [orb] in Hres.
    destruct (8 * Z.of_nat iplen <? ones) eqn:Hbig; [done|].
    apply Z.ltb_ge in Hneg, Hbig. simplify_eq. cbn [mask net.IPNet_Mask].
    exists iplen.
    assert (net.CIDRMask ones (8 * Z.of_nat iplen) = net.CIDRMask_loop iplen ones) as ->.
    { unfold net.CIDRMask.
      assert ((ones <? 0) = false) as -> by (by apply Z.ltb_ge).
      assert ((8 * Z.of_nat iplen <? ones) = false) as -> by (by apply Z.ltb_ge).
      destruct Hlen as [-> | ->]; reflexivity. }
    rewrite CIDRMask_loop_length. by split_and!. }
  destruct (net.parseIPv4 (net.strTake i raw)) as [|b bs].
  - apply (Hgen net.IPv6len _ (or_intror eq_refl) H).
  - apply (Hgen net.IPv4len _ (or_introl eq_refl) H).
Qed.

Lemma merged_prefixBit (raw : string) (p : IP) (d : net.IP) (q : nat) :
  UnmarshalYAML (Some raw) = Some p ->
  length d = length (mask p) ->
  (q < 8 * length (mask p))%nat ->
  ApplyIPToMask p d = Ok (merged d p) /\
  prefixBit (merged d p) (8 * (16 - length (mask p)) + q)
  = if Z.of_nat q <? literalPrefix raw
    then prefixBit d q || prefixBit (ip p) (8 * (16 - length (mask p)) + q)
    else prefixBit (ip p) (8 * (16 - length (mask p)) + q).
Proof.
  intros Hp Hd Hq.
  destruct (UnmarshalYAML_mask raw p Hp) as (l & Hl & Hlen & Hrange & Hmask).
  apply UnmarshalYAML_shape in Hp as Hwf.
  assert (Hfit : net.Mask d (mask p) <> []).
  { destruct Hl as [-> | ->].
    - rewrite Mask_4_4 by lia.
      assert (length (zip_with Z.land d (mask p)) = 4%nat) as Hz
        by (rewrite length_zip_with; lia).
      intros Hnil. by rewrite Hnil in Hz.
    - rewrite Mask_16_16 by lia.
      assert (length (zip_with Z.land d (mask p)) = 16%nat) as Hz
        by (rewrite length_zip_with; lia).
      intros Hnil. by rewrite Hnil in Hz. }
  split; [by apply ApplyIPToMask_merged|].
  rewrite Hlen in *.
  assert (Hidx : ((8 * (16 - l) + q) / 8 < 16)%nat).
  { apply Nat.Div0.div_lt_upper_bound. destruct Hl as [-> | ->]; lia. }
  unfold prefixBit at 1.
  fold (bit (merged d p) ((8 * (16 - l) + q) / 8)
            (7 - Z.of_nat ((8 * (16 - l) + q) mod 8))).
  rewrite merged_bit by done. unfold bit.
  fold (prefixBit (net.To16 d) (8 * (16 - l) + q)).
  fold (prefixBit (mask16 (mask p)) (8 * (16 - l) + q)).
  fold (prefixBit (ip p) (8 * (16 - l) + q)).
  assert (Hdq : prefixBit (net.To16 d) (8 * (16 - l) + q) = prefixBit d q).
  { destruct Hl as [-> | ->].
    - rewrite To16_4 by lia. apply (prefixBit_shift net.v4InV6Prefix).
    - by rewrite To16_16 by lia. }
  assert (Hmq : prefixBit (mask16 (mask p)) (8 * (16 - l) + q)
                = (Z.of_nat q <? literalPrefix raw)).
  { rewrite <- (CIDRMask_loop_bit l (literalPrefix raw) q) by done.
    rewrite <- Hmask. unfold mask16. destruct Hl as [-> | ->].
    - rewrite bool_decide_eq_true_2 by done.
      apply (prefixBit_shift (replicate 12 255)).
    - rewrite bool_decide_eq_false_2 by (rewrite Hlen; done). done. }
  rewrite Hdq, Hmq.
  destruct (Z.of_nat q <? literalPrefix raw).
  - by rewrite andb_true_r.
  - by rewrite andb_false_r.
Qed.

(** X1.  The merge in terms of the prefix length [n] of the literal:
    numbering the bits of the address family from the most significant
    one, bit [q] of the result is the discovered bit ORed with the base
    bit for [q < n], and the base bit for [q >= n]. *)
Theorem merge_follows_prefix_length
    (raw : string) (p : IP) (d : net.IP) (q : nat) :
  UnmarshalYAML (Some raw) = Some p ->
  length d = length (mask p) ->
  (q < 8 * length (mask p))%nat ->
  ApplyIPToMask p d = Ok (merged d p) /\
  prefixBit (merged d p) (8 * (16 - length (mask p)) + q)
  = if Z.of_nat q <? literalPrefix raw
    then prefixBit d q || prefixBit (ip p) (8 * (16 - length (mask p)) + q)
    else prefixBit (ip p) (8 * (16 - length (mask p)) + q).
Proof. apply merged_prefixBit. Qed.

Lemma merge_follows_prefix_length_witness :
  prefixBit (merged [1; 2; 3; 4] (mkIP (net.IPv4 0 0 0 9) [255; 255; 255; 0]))
            (8 * (16 - 4) + 31)
  = if 31 <? literalPrefix "0.0.0.9/24"
    then prefixBit [1; 2; 3; 4] 31 || prefixBit (net.IPv4 0 0 0 9) (8 * (16 - 4) + 31)
    else prefixBit (net.IPv4 0 0 0 9) (8 * (16 - 4) + 31).
Proof.
  destruct (merge_follows_prefix_length "0.0.0.9/24"
              (mkIP (net.IPv4 0 0 0 9) [255; 255; 255; 0]) [1; 2; 3; 4] 31)
    as [_ H].
  - vm_compute. reflexivity.
  - reflexivity.
  - cbn. lia.
  - exact H.
Defined.

(** ** Further properties: when the merge succeeds *)

Lemma Mask_fits_nonempty (d : net.IP) (m : net.IPMask) :
  length d = length m -> (length m = 4%nat \/ length m = 16%nat) ->
  net.Mask d m <> [].
Proof.
  intros Hd Hm Hnil.
  assert (length (net.Mask d m) = length m) as Hlen.
  { destruct Hm as [Hm|Hm].
    - rewrite Mask_4_4 by lia. rewrite length_zip_with. lia.
    - rewrite Mask_16_16 by lia. rewrite length_zip_with. lia. }
  rewrite Hnil in Hlen. cbn in Hlen. lia.
Qed.

(** X2.  For a parsed partial address the merge either returns the
    16-byte closed form or panics, and it panics exactly when the mask
    does not apply to the discovered address ([Mask] returns nil).  It
    succeeds whenever the discovered address has as many bytes as the
    mask, which is how [main] pairs them. *)
Theorem merge_succeeds_iff_mask_applies (u : option string) (p : IP) (d : net.IP) :
  UnmarshalYAML u = Some p ->
  (net.Mask d (mask p) <> [] ->
   ApplyIPToMask p d = Ok (merged d p) /\ length (merged d p) = 16%nat) /\
  (net.Mask d (mask p) = [] -> ApplyIPToMask p d = Panic index_out_of_range) /\
  (length d = length (mask p) -> ApplyIPToMask p d = Ok (merged d p)).
Proof.
  intros Hp. apply UnmarshalYAML_shape in Hp as Hwf.
  pose proof (wf_partial_mask_length p Hwf) as Hm.
  split_and!.
  - intros Hfit. split; [by apply ApplyIPToMask_merged|].
    unfold merged. rewrite !length_zip_with.
    rewrite (Mask_fits_To16 d (mask p) Hm Hfit), (mask16_length (mask p) Hm),
      (wf_partial_To16 p Hwf).
    destruct Hwf as [-> _]. done.
  - intros Hnil. unfold ApplyIPToMask. rewrite Hnil, (wf_partial_To16 p Hwf).
    apply orInto_nil. destruct Hwf as [Hip _]. by destruct (ip p).
  - intros Hd. apply ApplyIPToMask_merged; [done|]. by apply Mask_fits_nonempty.
Qed.

Lemma merge_succeeds_iff_mask_applies_witness :
  ApplyIPToMask (mkIP (net.IPv4 0 0 0 9) [255; 255; 255; 0])
                [32; 1; 4; 112; 31; 14; 8; 63; 0; 0; 0; 0; 0; 0; 0; 2]
  = Panic index_out_of_range.
Proof.
  destruct (merge_succeeds_iff_mask_applies (Some "0.0.0.9/24")
              (mkIP (net.IPv4 0 0 0 9) [255; 255; 255; 0])
              [32; 1; 4; 112; 31; 14; 8; 63; 0; 0; 0; 0; 0; 0; 0; 2])
    as (_ & H & _).
  - vm_compute. reflexivity.
  - apply H. vm_compute. reflexivity.
Defined.

Lemma To4_mapped (x : list Z) :
  length x = 4%nat -> net.To4 (net.v4InV6Prefix ++ x) = x.
Proof. intros Hx. explode Hx. reflexivity. Qed.

(** X3.  A partial address written in dotted decimal is an IPv4 one
    ([Is4]), and merged with a 4-byte discovered address it gives the
    IPv4-mapped form of [(d & mask) | base] computed on the four bytes:
    the A record carries that IPv4 address. *)
Theorem dotted_partial_publishes_ipv4 (u : option string) (p : IP) (d : net.IP) :
  UnmarshalYAML u = Some p ->
  length (mask p) = 4%nat ->
  length d = 4%nat ->
  Is4 p = true /\
  ApplyIPToMask p d
  = Ok (net.v4InV6Prefix
        ++ zip_with Z.lor (zip_with Z.land d (mask p)) (drop 12 (ip p))) /\
  net.To4 (net.v4InV6Prefix
           ++ zip_with Z.lor (zip_with Z.land d (mask p)) (drop 12 (ip p)))
  = zip_with Z.lor (zip_with Z.land d (mask p)) (drop 12 (ip p)).
Proof.
  intros Hp Hm Hd. apply UnmarshalYAML_shape in Hp as Hwf.
  destruct Hwf as [Hip [[_ Hpre]|Hm16]]; [|lia].
  assert (Hsplit : ip p = net.v4InV6Prefix ++ drop 12 (ip p)).
  { rewrite <- Hpre. by rewrite take_drop. }
  assert (Hbase : length (drop 12 (ip p)) = 4%nat) by (rewrite length_drop; lia).
  split_and!.
  - unfold Is4. rewrite Hsplit, To4_mapped by done.
    apply negb_true_iff, bool_decide_eq_false_2.
    intros Hnil. by rewrite Hnil in Hbase.
  - rewrite ApplyIPToMask_merged.
    + f_equal. unfold merged, mask16.
      rewrite bool_decide_eq_true_2 by done.
      rewrite To16_4, (To16_16 (ip p)) by done.
      rewrite Hsplit at 1.
      rewrite zip_with_app by done. rewrite prefix_land_ones.
      rewrite zip_with_app by done. by rewrite prefix_lor_prefix.
    + split; [done|]. by left.
    + apply Mask_fits_nonempty; [lia|by left].
  - apply To4_mapped. rewrite !length_zip_with. lia.
Qed.

Lemma dotted_partial_publishes_ipv4_witness :
  ApplyIPToMask (mkIP (net.IPv4 0 0 0 9) [255; 255; 255; 0]) [1; 2; 3; 4]
  = Ok (net.v4InV6Prefix
        ++ zip_with Z.lor (zip_with Z.land [1; 2; 3; 4] [255; 255; 255; 0])
                    (drop 12 (net.IPv4 0 0 0 9))).
Proof.
  destruct (dotted_partial_publishes_ipv4 (Some "0.0.0.9/24")
              (mkIP (net.IPv4 0 0 0 9) [255; 255; 255; 0]) [1; 2; 3; 4])
    as (_ & H & _).
  - vm_compute. reflexivity.
  - reflexivity.
  - reflexivity.
  - exact H.
Defined.

(** ** Further properties: rejected host entries *)

(** X4.  A host entry is rejected, with the error of [ParseCIDR], when
    its scalar cannot be decoded (the empty string is parsed instead),
    when it has no slash, and when the number after the slash exceeds
    128. *)
Theorem UnmarshalYAML_rejects (raw : string) :
  net.indexByte raw "/"%char = None \/ 128 < literalPrefix raw ->
  UnmarshalYAML (Some raw) = None /\ UnmarshalYAML None = None.
Proof.
  intros Hbad. split; [|reflexivity].
  destruct (UnmarshalYAML (Some raw)) as [p|] eqn:Hp; [exfalso|done].
  destruct Hbad as [Hslash|Hbig].
  - revert Hp. unfold UnmarshalYAML. change (default "" (Some raw)) with raw.
    unfold net.ParseCIDR. by rewrite Hslash.
  - destruct (UnmarshalYAML_mask raw p Hp) as (l & [-> | ->] & _ & Hrange & _); lia.
Qed.

Lemma UnmarshalYAML_rejects_witness :
  UnmarshalYAML (Some "198.100.123.139") = None.
Proof.
  apply (UnmarshalYAML_rejects "198.100.123.139").
  left. reflexivity.
Defined.

(** ** Further properties: owner names *)

Lemma Fqdn_fixed (s : string) : dns.IsFqdn s = true -> dns.Fqdn s = s.
Proof. intros Hs. unfold dns.Fqdn. by rewrite Hs. Qed.

Lemma lastChar_app (s z : string) :
  z <> "" -> dns.lastChar (s +:+ z) = dns.lastChar z.
Proof.
  intros Hz. induction s as [|c s IH]; [done|].
  change (String c s +:+ z) with (String c (s +:+ z)).
  destruct (s +:+ z) eqn:Hs; [|exact IH].
  destruct s; [by subst|done].
Qed.

(** X5.  Every owner name that [joinDomain] builds is fully qualified;
    ["@"] names the zone apex; any other host of a fully-qualified,
    non-empty zone gets the name [host.zone], with the dot added only
    when the host does not end in one. *)
Theorem joinDomain_fully_qualified (part zone : string) :
  dns.IsFqdn (joinDomain part zone) = true /\
  joinDomain "@" zone = dns.Fqdn zone /\
  (part <> "@" -> dns.IsFqdn zone = true ->
   joinDomain part zone = dns.Fqdn part +:+ zone).
Proof.
  split_and!.
  - unfold joinDomain. case_bool_decide; apply IsFqdn_Fqdn.
  - reflexivity.
  - intros Hpart Hzone. unfold joinDomain.
    rewrite bool_decide_eq_false_2 by done.
    apply Fqdn_fixed. unfold dns.IsFqdn in *.
    apply bool_decide_eq_true in Hzone. apply bool_decide_eq_true_2.
    rewrite lastChar_app; [done|]. intros ->. done.
Qed.

(** ** Further properties: runs of the signed updater that fail *)

Lemma hostLoop_cases (config : rfc2136.Config) (four sixPrefix : net.IP)
    (hosts : list (string * IP)) :
  forall insertions t,
    (exists finals, mergesTo four sixPrefix hosts finals) \/
    (exists msg,
       (rfc2136.hostLoop config four sixPrefix hosts insertions t).2 = Panic msg).
Proof.
  induction hosts as [|[host p] hosts IH]; intros insertions t.
  { left. exists []. constructor. }
  cbn [rfc2136.hostLoop].
  destruct (Is4 p) eqn:H4.
  - destruct (ApplyIPToMask p four) as [f|msg|msg] eqn:Hf.
    + rewrite bind_lift_Ok, bind_emit.
      match goal with
      | |- _ \/ (exists msg, (rfc2136.hostLoop _ _ _ _ ?ins ?t').2 = _) =>
          destruct (IH ins t') as [[finals Hm]|[msg Hmsg]]
      end.
      * left. exists (f :: finals). constructor; [|done].
        unfold baseFor. cbn [snd]. by rewrite H4.
      * right. exists msg. exact Hmsg.
    + right. exists msg. by rewrite bind_lift_Panic.
    + by apply ApplyIPToMask_not_Fatal in Hf.
  - destruct (ApplyIPToMask p sixPrefix) as [f|msg|msg] eqn:Hf.
    + rewrite bind_lift_Ok, bind_emit.
      match goal with
      | |- _ \/ (exists msg, (rfc2136.hostLoop _ _ _ _ ?ins ?t').2 = _) =>
          destruct (IH ins t') as [[finals Hm]|[msg Hmsg]]
      end.
      * left. exists (f :: finals). constructor; [|done].
        unfold baseFor. cbn [snd]. by rewrite H4.
      * right. exists msg. exact Hmsg.
    + right. exists msg. by rewrite bind_lift_Panic.
    + by apply ApplyIPToMask_not_Fatal in Hf.
Qed.

Lemma bind_Panic {A B : Type} (m : prog A) (k : A -> prog B)
    (t t' : list event) (msg : string) :
  m t = (t', Panic msg) -> (m ≫= k) t = (t', Panic msg).
Proof. intros H. unfold mbind, prog_bind. by rewrite H. Qed.

(** A run whose host loop panics ends there, with the trace of the loop. *)
Lemma main_host_panic (e : rfc2136.Env) (config : rfc2136.Config)
    (ifs : list Interface) (msg : string) :
  rfc2136.logCreate e = None ->
  rfc2136.config_load e = Loaded config ->
  rfc2136.interfaces e = inl ifs ->
  (rfc2136.hostLoop config
     (resolve (rfc2136.fourFrom e) (rfc2136.sixFrom e) ifs).1
     (resolve (rfc2136.fourFrom e) (rfc2136.sixFrom e) ifs).2
     (rfc2136.Hosts config) [] []).2 = Panic msg ->
  (run (rfc2136.main e)).2 = Panic msg /\
  exchanges (run (rfc2136.main e)).1 = [].
Proof.
  intros Hlog Hcfg Hifs Hloop.
  unfold run, rfc2136.main. rewrite Hlog, Hcfg, Hifs.
  rewrite !bind_mret.
  destruct (resolve _ _ ifs) as [four sixPrefix]. cbn [fst snd] in Hloop.
  pose proof (hostLoop_never_exchanges config four sixPrefix
                (rfc2136.Hosts config) [] []) as Hex.
  destruct (rfc2136.hostLoop config four sixPrefix (rfc2136.Hosts config) [] [])
    as [t' r] eqn:Hrun.
  cbn [fst snd] in *. subst r.
  rewrite (bind_Panic _ _ _ _ _ Hrun). cbn [fst snd]. by split.
Qed.

(** X6.  Nothing is sent unless everything before succeeded: a run of
    the signed updater whose trace has an exchange created its log,
    loaded its configuration, listed the interfaces and merged every
    host. *)
Theorem update_sent_only_when_all_hosts_merge (e : rfc2136.Env) :
  exchanges (run (rfc2136.main e)).1 <> [] ->
  rfc2136.logCreate e = None /\
  exists config ifs finals,
    rfc2136.config_load e = Loaded config /\
    rfc2136.interfaces e = inl ifs /\
    mergesTo (resolve (rfc2136.fourFrom e) (rfc2136.sixFrom e) ifs).1
             (resolve (rfc2136.fourFrom e) (rfc2136.sixFrom e) ifs).2
             (rfc2136.Hosts config) finals.
Proof.
  intros Hsent.
  destruct (rfc2136.logCreate e) as [err|] eqn:Hlog.
  { exfalso. apply Hsent. unfold run, rfc2136.main. by rewrite Hlog. }
  split; [done|].
  destruct (rfc2136.config_load e) as [err|err|config] eqn:Hcfg.
  { exfalso. apply Hsent. unfold run, rfc2136.main. by rewrite Hlog, Hcfg. }
  { exfalso. apply Hsent. unfold run, rfc2136.main. by rewrite Hlog, Hcfg. }
  destruct (rfc2136.interfaces e) as [ifs|err] eqn:Hifs.
  2:{ exfalso. apply Hsent. unfold run, rfc2136.main. by rewrite Hlog, Hcfg, Hifs. }
  exists config, ifs.
  destruct (hostLoop_cases config
              (resolve (rfc2136.fourFrom e) (rfc2136.sixFrom e) ifs).1
              (resolve (rfc2136.fourFrom e) (rfc2136.sixFrom e) ifs).2
              (rfc2136.Hosts config) [] []) as [[finals Hm]|[msg Hmsg]].
  - by exists finals.
  - exfalso. apply Hsent.
    by destruct (main_host_panic e config ifs msg Hlog Hcfg Hifs Hmsg).
Qed.

Lemma update_sent_only_when_all_hosts_merge_witness :
  rfc2136.logCreate exampleEnv = None.
Proof.
  destruct (update_sent_only_when_all_hosts_merge exampleEnv) as [H _].
  - vm_compute. discriminate.
  - exact H.
Defined.

(** Every entry parsed from a CIDR literal has a base of 16 bytes. *)
Lemma parsed_base_usable (u : option string) (p : IP) :
  UnmarshalYAML u = Some p -> net.To16 (ip p) <> [].
Proof.
  intros Hp. apply UnmarshalYAML_shape in Hp as Hwf.
  rewrite (wf_partial_To16 p Hwf). destruct Hwf as [Hip _].
  intros Hnil. by rewrite Hnil in Hip.
Qed.

(** X7.  When the base address needed by some host was not found and
    the partial address of that host has a base of 4 or 16 bytes (as
    every entry parsed from a CIDR literal has), the signed updater
    panics in the host loop and sends nothing, also for the hosts whose
    base address was found. *)
Theorem missing_base_sends_nothing
    (e : rfc2136.Env) (config : rfc2136.Config) (ifs : list Interface)
    (host : string) (p : IP) :
  rfc2136.logCreate e = None ->
  rfc2136.config_load e = Loaded config ->
  rfc2136.interfaces e = inl ifs ->
  (host, p) ∈ rfc2136.Hosts config ->
  net.To16 (ip p) <> [] ->
  baseFor (resolve (rfc2136.fourFrom e) (rfc2136.sixFrom e) ifs).1
          (resolve (rfc2136.fourFrom e) (rfc2136.sixFrom e) ifs).2 p = [] ->
  (exists msg, (run (rfc2136.main e)).2 = Panic msg) /\
  exchanges (run (rfc2136.main e)).1 = [].
Proof.
  intros Hlog Hcfg Hifs Hin Hp Hbase.
  destruct (hostLoop_missing_base config _ _ _ host p Hin Hp Hbase [] [])
    as [msg Hmsg].
  destruct (main_host_panic e config ifs msg Hlog Hcfg Hifs Hmsg) as [Hres Hex].
  split; [by exists msg|done].
Qed.

Lemma missing_base_sends_nothing_witness :
  exchanges (run (rfc2136.main exampleEnvNoSix)).1 = [].
Proof.
  destruct (missing_base_sends_nothing exampleEnvNoSix exampleConfig
              exampleInterfacesNoSix "host1" exampleHost1)
    as [_ H].
  - reflexivity.
  - reflexivity.
  - reflexivity.
  - apply list_elem_of_here.
  - apply (parsed_base_usable (Some "::1234:1234:1234:1234/64")).
    vm_compute. reflexivity.
  - vm_compute. reflexivity.
  - exact H.
Defined.

(** ** Further properties: the Azure updater when a merge panics *)

(** X8.  In the Azure updater a host that cannot be merged stops the
    process only when the loop reaches it: the goroutine of an earlier
    host can have sent its request by then.  From a batch whose first
    host merges and whose second host panics there is a run of five
    steps that ends in the panic with the request of the first host
    already sent. *)
Theorem azure_can_publish_before_panic
    (client : azure.Request -> option string) (updater : azure.azureDnsUpdater)
    (four sixPrefix : net.IP) (h1 h2 : string * IP) (rest : list (string * IP))
    (sub1 : azure.submission) (msg : string) :
  azure.submit four sixPrefix h1 = Ok sub1 ->
  azure.submit four sixPrefix h2 = Panic msg ->
  exists s,
    nsteps (azure.step client updater four sixPrefix) 5
           (azure.init (h1 :: h2 :: rest)) s /\
    azure.pc s = azure.MPanicked msg /\
    requestsOf (azure.trace s) = [azure.request updater sub1].
Proof.
  intros H1 H2. eexists. split; [|split].
  - eapply nsteps_l; [apply azure.step_loop_ok; exact H1|].
    eapply nsteps_l; [apply azure.step_add|].
    eapply nsteps_l; [apply azure.step_go|].
    eapply nsteps_l;
      [apply (azure.step_call client updater four sixPrefix _ [] sub1 []);
       reflexivity|].
    eapply nsteps_l; [apply azure.step_loop_panic; exact H2|].
    apply nsteps_O.
  - reflexivity.
  - reflexivity.
Qed.

Lemma azure_can_publish_before_panic_witness :
  exists s,
    nsteps (azure.step exampleClient exampleUpdater [198; 100; 123; 139] []) 5
           (azure.init exampleHosts) s /\
    azure.pc s = azure.MPanicked index_out_of_range /\
    requestsOf (azure.trace s)
    = [azure.request exampleUpdater
         (azure.mkSubmission "@" "A" (net.IPv4 198 100 123 139))].
Proof.
  apply (azure_can_publish_before_panic exampleClient exampleUpdater
           [198; 100; 123; 139] [] ("@", exampleApex) ("host1", exampleHost1) []).
  - vm_compute. reflexivity.
  - vm_compute. reflexivity.
Defined.

(** ** Further properties: which interface is used *)

Lemma resolve_skip_four (fourFrom sixFrom : string) (post : list Interface) :
  forall acc,
    Forall (fun i => Name i = fourFrom -> Addrs i = None) post ->
    (foldl (resolveStep fourFrom sixFrom) acc post).1 = acc.1.
Proof.
  induction post as [|i post IH]; intros acc Hpost; [done|].
  apply Forall_cons in Hpost as [Hi Hpost].
  cbn [foldl]. rewrite IH by done.
  unfold resolveStep. destruct (Addrs i) as [addrs|] eqn:Ha; [|done].
  cbn [fst]. case_bool_decide as Hname; [|done].
  specialize (Hi Hname). congruence.
Qed.

Lemma resolve_skip_six (fourFrom sixFrom : string) (post : list Interface) :
  forall acc,
    Forall (fun i => Name i = sixFrom -> Addrs i = None) post ->
    (foldl (resolveStep fourFrom sixFrom) acc post).2 = acc.2.
Proof.
  induction post as [|i post IH]; intros acc Hpost; [done|].
  apply Forall_cons in Hpost as [Hi Hpost].
  cbn [foldl]. rewrite IH by done.
  unfold resolveStep. destruct (Addrs i) as [addrs|] eqn:Ha; [|done].
  cbn [snd]. case_bool_decide as Hname; [|done].
  specialize (Hi Hname). congruence.
Qed.

(** X9.  The discovered addresses come from the last interface of the
    enumeration that carries the name and whose addresses can be
    listed: what it yields replaces whatever an earlier interface of
    that name gave, also when it yields nothing. *)
Theorem last_enumerable_interface_wins
    (fourFrom sixFrom : string) (pre post : list Interface)
    (iface : Interface) (addrs : list Addr) :
  Addrs iface = Some addrs ->
  (Name iface = fourFrom ->
   Forall (fun i => Name i = fourFrom -> Addrs i = None) post ->
   (resolve fourFrom sixFrom (pre ++ iface :: post)).1
   = chooseFour (chooseUnicast addrs)) /\
  (Name iface = sixFrom ->
   Forall (fun i => Name i = sixFrom -> Addrs i = None) post ->
   (resolve fourFrom sixFrom (pre ++ iface :: post)).2
   = chooseSix (chooseUnicast addrs)).
Proof.
  intros Ha. unfold resolve. rewrite foldl_app. cbn [foldl].
  split; intros Hname Hpost.
  - rewrite resolve_skip_four by done.
    unfold resolveStep. rewrite Ha. cbn [fst].
    by rewrite bool_decide_eq_true_2.
  - rewrite resolve_skip_six by done.
    unfold resolveStep. rewrite Ha. cbn [snd].
    by rewrite bool_decide_eq_true_2.
Qed.

Lemma last_enumerable_interface_wins_witness :
  (resolve "eth0" "eth1"
     ([mkInterface "eth0"
         (Some [Addr_IPNet (net.mkIPNet (net.IPv4 198 100 123 139) [255; 255; 255; 0])])]
      ++ mkInterface "eth0" (Some []) :: [])).1 = [].
Proof.
  destruct (last_enumerable_interface_wins "eth0" "eth1"
              [mkInterface "eth0"
                 (Some [Addr_IPNet (net.mkIPNet (net.IPv4 198 100 123 139)
                                                [255; 255; 255; 0])])]
              [] (mkInterface "eth0" (Some [])) []) as [H _].
  - reflexivity.
  - apply H; [reflexivity|constructor].
Defined.

(** ** Further properties: the two updaters on the same hosts *)

Lemma submit_Ok (four sixPrefix : net.IP) (host : string) (p : IP)
    (sub : azure.submission) :
  azure.submit four sixPrefix (host, p) = Ok sub <->
  ApplyIPToMask p (baseFor four sixPrefix p) = Ok (azure.sub_ip sub) /\
  azure.sub_host sub = host /\
  azure.sub_recordType sub = (if Is4 p then "A" else "AAAA").
Proof.
  unfold azure.submit, baseFor.
  destruct (Is4 p).
  - destruct (ApplyIPToMask p four) as [f|msg|msg]; cbn.
    + split.
      * intros [= <-]. done.
      * intros ([= ->] & <- & Ht). destruct sub. cbn in *. by subst.
    + split; [done|]. by intros [? _].
    + split; [done|]. by intros [? _].
  - destruct (ApplyIPToMask p sixPrefix) as [f|msg|msg]; cbn.
    + split.
      * intros [= <-]. done.
      * intros ([= ->] & <- & Ht). destruct sub. cbn in *. by subst.
    + split; [done|]. by intros [? _].
    + split; [done|]. by intros [? _].
Qed.

Lemma submitsTo_mergesTo (four sixPrefix : net.IP) (hosts : list (string * IP))
    (subs : list azure.submission) :
  submitsTo four sixPrefix hosts subs ->
  mergesTo four sixPrefix hosts (azure.sub_ip <$> subs).
Proof.
  unfold submitsTo, mergesTo.
  induction 1 as [|[host p] sub hosts subs Hsub _ IH]; [constructor|].
  apply submit_Ok in Hsub as (Hf & _ & _). cbn. by constructor.
Qed.

Lemma mergesTo_submitsTo (four sixPrefix : net.IP) (hosts : list (string * IP))
    (finals : list net.IP) :
  mergesTo four sixPrefix hosts finals ->
  exists subs,
    submitsTo four sixPrefix hosts subs /\ azure.sub_ip <$> subs = finals.
Proof.
  unfold submitsTo, mergesTo.
  induction 1 as [|[host p] f hosts finals Hf _ (subs & IH1 & IH2)].
  - exists []. split; [constructor|done].
  - exists (azure.mkSubmission host (if Is4 p then "A" else "AAAA") f :: subs).
    split; [|cbn; by rewrite IH2].
    constructor; [|done]. by apply submit_Ok.
Qed.

(** X10.  Both updaters merge alike.  When the host loop of the Azure
    updater reaches the [Set*Record] call of every host, the host loop
    of the signed updater on the same hosts and base addresses builds
    its records without a panic, two per host, and the record of host
    number [i] at position [2i+1] is an A record when the submission is
    of type ["A"] and an AAAA record otherwise, with the submitted
    address, under the owner name made from the submitted host key.
    Conversely, whenever the signed loop builds its records, the Azure
    loop reaches every [Set*Record] call. *)
Theorem both_updaters_merge_alike
    (config : rfc2136.Config) (four sixPrefix : net.IP)
    (hosts : list (string * IP)) :
  (forall subs,
     submitsTo four sixPrefix hosts subs ->
     exists t ins,
       rfc2136.hostLoop config four sixPrefix hosts [] [] = (t, Ok ins) /\
       length ins = (2 * length subs)%nat /\
       forall i sub,
         subs !! i = Some sub ->
         ins !! (2 * i + 1)%nat
         = Some (if bool_decide (azure.sub_recordType sub = "A")
                 then dns.A (dns.mkHeader
                               (joinDomain (azure.sub_host sub) (rfc2136.Zone config))
                               dns.TypeA dns.ClassINET (rfc2136.Ttl config) 0)
                            (azure.sub_ip sub)
                 else dns.AAAA (dns.mkHeader
                                  (joinDomain (azure.sub_host sub) (rfc2136.Zone config))
                                  dns.TypeAAAA dns.ClassINET (rfc2136.Ttl config) 0)
                               (azure.sub_ip sub))) /\
  (forall t ins,
     rfc2136.hostLoop config four sixPrefix hosts [] [] = (t, Ok ins) ->
     exists subs,
       submitsTo four sixPrefix hosts subs /\
       length ins = (2 * length subs)%nat).
Proof.
  split.
  - intros subs Hs.
    pose proof (submitsTo_mergesTo _ _ _ _ Hs) as Hm.
    pose proof (Forall2_length _ _ _ Hs) as Hlen.
    rewrite (hostLoop_ok config four sixPrefix hosts _ Hm [] []).
    eexists _, _. split; [reflexivity|]. cbn [app].
    split.
    { rewrite insertionsFor_length by (rewrite length_fmap; lia). lia. }
    intros i sub Hi.
    destruct (Forall2_lookup_r _ _ _ _ _ Hs Hi) as ([host p] & Hh & Hsub).
    apply submit_Ok in Hsub as (_ & Hhost & Htype).
    assert (Hf : (azure.sub_ip <$> subs) !! i = Some (azure.sub_ip sub))
      by (by rewrite list_lookup_fmap, Hi).
    destruct (insertionsFor_lookup config i _ _ host p _ Hh Hf) as [_ H1].
    rewrite H1, Hhost, Htype.
    by destruct (Is4 p).
  - intros t ins Hrun.
    destruct (hostLoop_cases config four sixPrefix hosts [] [])
      as [[finals Hm]|[msg Hmsg]].
    + destruct (mergesTo_submitsTo _ _ _ _ Hm) as (subs & Hs & Hips).
      exists subs. split; [done|].
      rewrite (hostLoop_ok config four sixPrefix hosts _ Hm [] []) in Hrun.
      simplify_eq. cbn [app].
      rewrite insertionsFor_length by (by eapply Forall2_length).
      by rewrite (Forall2_length _ _ _ Hs).
    + rewrite Hrun in Hmsg. done.
Qed.

Lemma both_updaters_merge_alike_witness :
  submitsTo [198; 100; 123; 139]
    [32; 1; 4; 112; 31; 14; 8; 63; 0; 0; 0; 0; 0; 0; 0; 0]
    exampleHosts exampleSubmissions /\
  exists t ins,
    rfc2136.hostLoop exampleConfig [198; 100; 123; 139]
      [32; 1; 4; 112; 31; 14; 8; 63; 0; 0; 0; 0; 0; 0; 0; 0]
      exampleHosts [] [] = (t, Ok ins) /\
    length ins = 4%nat /\
    ins !! 1%nat
    = Some (dns.A (dns.mkHeader "fully.qualified.update.zone."
                     dns.TypeA dns.ClassINET 300 0)
                  (net.IPv4 198 100 123 139)) /\
    ins !! 3%nat
    = Some (dns.AAAA (dns.mkHeader "host1.fully.qualified.update.zone."
                        dns.TypeAAAA dns.ClassINET 300 0)
                     [32; 1; 4; 112; 31; 14; 8; 63; 18; 52; 18; 52; 18; 52; 18; 52]).
Proof.
  assert (Hs : submitsTo [198; 100; 123; 139]
                 [32; 1; 4; 112; 31; 14; 8; 63; 0; 0; 0; 0; 0; 0; 0; 0]
                 exampleHosts exampleSubmissions).
  { repeat constructor; vm_compute; reflexivity. }
  split; [exact Hs|].
  destruct (both_updaters_merge_alike exampleConfig [198; 100; 123; 139]
              [32; 1; 4; 112; 31; 14; 8; 63; 0; 0; 0; 0; 0; 0; 0; 0]
              exampleHosts) as [H _].
  destruct (H _ Hs) as (t & ins & Hrun & Hlen & Hrec).
  exists t, ins.
  pose proof (Hrec 0%nat _ eq_refl) as H0.
  pose proof (Hrec 1%nat _ eq_refl) as H1.
  split; [exact Hrun|]. split; [exact Hlen|].
  split; [exact H0|exact H1].
Defined.

(** ** Further properties: partial addresses the merge cannot use *)

Lemma Mask_nil_mask (d : net.IP) : net.Mask d [] = [].
Proof.
  unfold net.Mask. cbn [length bool_decide andb].
  change (bool_decide (0%nat = net.IPv6len)) with false.
  change (bool_decide (0%nat = net.IPv4len)) with false.
  cbn [andb]. case_bool_decide; [|done].
  by rewrite zip_with_nil_r.
Qed.

(** X11.  A partial address whose base has no 16-byte form is not ORed
    into anything: the merge returns the masked discovered address as
    it is.  For the zero value of the struct (an entry that was never
    unmarshalled) that is the nil address, for every discovered address
    and without a panic, and such an entry counts as IPv6. *)
Theorem merge_with_unusable_base (p : IP) (d : net.IP) :
  net.To16 (ip p) = [] ->
  ApplyIPToMask p d = Ok (net.To16 (net.Mask d (mask p))) /\
  ApplyIPToMask (mkIP [] []) d = Ok [] /\
  Is4 (mkIP [] []) = false.
Proof.
  intros Hbase. split_and!.
  - unfold ApplyIPToMask. by rewrite Hbase.
  - unfold ApplyIPToMask. cbn [ip mask]. by rewrite Mask_nil_mask.
  - reflexivity.
Qed.

Lemma merge_with_unusable_base_witness :
  ApplyIPToMask (mkIP [1; 2; 3] [255; 255; 255; 0]) [1; 2; 3; 4]
  = Ok (net.To16 (net.Mask [1; 2; 3; 4] [255; 255; 255; 0])).
Proof.
  destruct (merge_with_unusable_base (mkIP [1; 2; 3] [255; 255; 255; 0])
              [1; 2; 3; 4]) as [H _].
  - reflexivity.
  - exact H.
Defined.

Lemma CIDRMask_short_prefix (n : Z) :
  0 <= n < 96 -> net.allFF (take 12 (net.CIDRMask_loop 16 n)) = false.
Proof.
  intros Hn.
  destruct (net.allFF (take 12 (net.CIDRMask_loop 16 n))) eqn:Hff; [exfalso|done].
  apply allFF_replicate in Hff.
  rewrite length_take, CIDRMask_loop_length in Hff.
  change (12 `min` 16)%nat with 12%nat in Hff.
  pose proof (CIDRMask_loop_bit 16 n 95) as Hbit.
  rewrite (split_at_12 (net.CIDRMask_loop 16 n)), Hff in Hbit.
  change (prefixBit (replicate 12 255 ++ drop 12 (net.CIDRMask_loop 16 n)) 95)
    with true in Hbit.
  specialize (Hbit ltac:(lia) ltac:(lia)).
  symmetry in Hbit. apply Z.ltb_lt in Hbit. lia.
Qed.

(** X12.  An IPv4-mapped literal such as [::ffff:0.0.0.9/64] is an
    [Is4] partial address with a 16-byte mask; when its prefix length
    is below 96 the mask does not apply to any 4-byte address, so the
    merge with the discovered IPv4 address panics whatever that address
    is. *)
Theorem short_prefix_on_16_byte_mask_panics (raw : string) (p : IP) (d : net.IP) :
  UnmarshalYAML (Some raw) = Some p ->
  length (mask p) = 16%nat ->
  literalPrefix raw < 96 ->
  length d = 4%nat ->
  ApplyIPToMask p d = Panic index_out_of_range.
Proof.
  intros Hp Hm Hshort Hd.
  destruct (UnmarshalYAML_mask raw p Hp) as (l & _ & Hl & Hrange & Hmask).
  assert (l = 16%nat) as -> by lia.
  apply UnmarshalYAML_shape in Hp as Hwf.
  unfold ApplyIPToMask.
  rewrite (Mask_4_16 d (mask p) Hd Hm), Hmask, CIDRMask_short_prefix by lia.
  rewrite (wf_partial_To16 p Hwf).
  apply orInto_nil. destruct Hwf as [Hip _]. by destruct (ip p).
Qed.

Lemma short_prefix_on_16_byte_mask_panics_witness :
  Is4 (mkIP (net.IPv4 0 0 0 9)
            [255; 255; 255; 255; 255; 255; 255; 255; 0; 0; 0; 0; 0; 0; 0; 0]) = true /\
  ApplyIPToMask (mkIP (net.IPv4 0 0 0 9)
                      [255; 255; 255; 255; 255; 255; 255; 255; 0; 0; 0; 0; 0; 0; 0; 0])
                [1; 2; 3; 4]
  = Panic index_out_of_range.
Proof.
  split; [reflexivity|].
  apply (short_prefix_on_16_byte_mask_panics "::ffff:0.0.0.9/64").
  - vm_compute. reflexivity.
  - reflexivity.
  - vm_compute. reflexivity.
  - reflexivity.
Defined.

(** ** Further properties: the discovered IPv4 address *)

Lemma isZeros_replicate (l : list Z) :
  net.isZeros l = true -> l = replicate (length l) 0.
Proof.
  unfold net.isZeros. induction l as [|b l IH]; [done|].
  cbn [forallb length replicate].
  intros [Hb Hl]%andb_prop. apply Z.eqb_eq in Hb. subst b.
  f_equal. by apply IH.
Qed.

Lemma To4_cases (x : net.IP) :
  net.To4 x <> [] ->
  (length x = 4%nat /\ net.To4 x = x) \/
  (exists y, length y = 4%nat /\ x = net.v4InV6Prefix ++ y /\ net.To4 x = y).
Proof.
  unfold net.To4. case_bool_decide as H4; [by left|].
  case_bool_decide as H16; [|done]. cbn [andb].
  destruct (net.isZeros (take 10 x)) eqn:Hz; [|done]. cbn [andb].
  destruct (net.at_ x 10 =? 255) eqn:H10; [|done]. cbn [andb].
  destruct (net.at_ x 11 =? 255) eqn:H11; [|done].
  intros _. right. exists (take 4 (drop 12 x)).
  apply isZeros_replicate in Hz. apply Z.eqb_eq in H10, H11.
  unfold net.IPv6len in H16. clear H4.
  explode H16. unfold net.at_ in *. cbn in Hz, H10, H11. simplify_eq.
  by split_and!.
Qed.

Lemma IsGlobalUnicast_To4 (x : net.IP) :
  net.To4 x <> [] -> net.IsGlobalUnicast (net.To4 x) = net.IsGlobalUnicast x.
Proof.
  intros Hx. destruct (To4_cases x Hx) as [[_ ->]|(y & Hy & -> & ->)]; [done|].
  explode Hy.
  unfold net.IsGlobalUnicast, net.IsUnspecified, net.IsLoopback,
    net.IsMulticast, net.IsLinkLocalUnicast, net.Equal, net.bytesEqual.
  cbn -[Z.eqb Z.land bool_decide].
  change (bool_decide (4%nat = net.IPv4len)) with true.
  change (bool_decide (4%nat = net.IPv6len)) with false.
  change (bool_decide (16%nat = net.IPv4len)) with false.
  change (bool_decide (16%nat = net.IPv6len)) with true.
  change (bool_decide (4%nat = 16%nat)) with false.
  change (bool_decide (16%nat = 16%nat)) with true.
  cbn -[Z.eqb Z.land bool_decide].
  repeat case_bool_decide; simplify_eq; try done.
Qed.

Lemma chooseUnicast_global (a : list Addr) :
  Forall (fun n => net.IsGlobalUnicast (net.IPNet_IP n) = true) (chooseUnicast a).
Proof.
  rewrite chooseUnicast_kept. apply Forall_forall. intros n Hn.
  apply list_elem_of_omap in Hn as (x & _ & Hx).
  destruct x as [n'| |]; cbn in Hx; [|done..].
  destruct (net.IsGlobalUnicast (net.IPNet_IP n')) eqn:Hg; by simplify_eq.
Qed.

(** X13.  When the resolver finds an IPv4 address, it has four bytes and
    is itself a global unicast address: not the broadcast address, not
    unspecified, not loopback, not multicast, not link-local. *)
Theorem discovered_ipv4_is_global_unicast (a : list Addr) :
  chooseFour (chooseUnicast a) <> [] ->
  length (chooseFour (chooseUnicast a)) = 4%nat /\
  net.IsGlobalUnicast (chooseFour (chooseUnicast a)) = true /\
  net.IsLoopback (chooseFour (chooseUnicast a)) = false /\
  net.IsLinkLocalUnicast (chooseFour (chooseUnicast a)) = false /\
  net.IsMulticast (chooseFour (chooseUnicast a)) = false /\
  net.IsUnspecified (chooseFour (chooseUnicast a)) = false.
Proof.
  intros Hfound.
  pose proof (chooseUnicast_global a) as Hkept.
  destruct (chooseFour_first (chooseUnicast a))
    as [(pre & n & post & Heq & _ & Hn & Hres) | [_ Hres]]; [|done].
  rewrite Hres.
  assert (Hg : net.IsGlobalUnicast (net.IPNet_IP n) = true).
  { rewrite Heq in Hkept. apply Forall_app in Hkept as [_ Hk].
    by apply Forall_cons in Hk as [Hk _]. }
  rewrite <- (IsGlobalUnicast_To4 _ Hn) in Hg.
  destruct (IsGlobalUnicast_excludes _ Hg) as (_ & Hlo & Hll & Hmc & Hun).
  split_and!; try done.
  by destruct (To4_shape (net.IPNet_IP n)).
Qed.

Lemma discovered_ipv4_is_global_unicast_witness :
  net.IsGlobalUnicast
    (chooseFour (chooseUnicast
       [Addr_IPNet (net.mkIPNet (net.IPv4 127 0 0 1) [255; 0; 0; 0]);
        Addr_IPNet (net.mkIPNet (net.IPv4 198 100 123 139) [255; 255; 255; 0])]))
  = true.
Proof.
  destruct (discovered_ipv4_is_global_unicast
              [Addr_IPNet (net.mkIPNet (net.IPv4 127 0 0 1) [255; 0; 0; 0]);
               Addr_IPNet (net.mkIPNet (net.IPv4 198 100 123 139) [255; 255; 255; 0])])
    as (_ & H & _).
  - vm_compute. discriminate.
  - exact H.
Defined.

(** ** Further properties: prefix from the interface, suffix from the
    configuration *)

Lemma prefixBit_land (x m : list Z) (q : nat) :
  (q / 8 < length x)%nat -> (q / 8 < length m)%nat ->
  prefixBit (zip_with Z.land x m) q = prefixBit x q && prefixBit m q.
Proof.
  intros Hx Hm. unfold prefixBit.
  rewrite zip_with_lookup_total by done. apply Z.land_spec.
Qed.

(** X14.  Resolver and merge together: an interface address [x] with
    prefix length [n] and a 16-byte partial address written with prefix
    length [l] give an address whose bit [q] is the interface bit ORed
    with the base bit for [q] below both [n] and [l], and the base bit
    from there on.  With [n = l] and a base that is zero on the prefix,
    that is the prefix of the interface followed by the suffix of the
    configuration. *)
Theorem prefix_from_interface_suffix_from_config
    (x : net.IP) (n : Z) (raw : string) (p : IP) (q : nat) :
  length x = 16%nat ->
  net.To4 x = [] ->
  net.IsGlobalUnicast x = true ->
  0 <= n <= 128 ->
  UnmarshalYAML (Some raw) = Some p ->
  length (mask p) = 16%nat ->
  (q < 128)%nat ->
  exists r,
    ApplyIPToMask p
      (chooseSix (chooseUnicast [Addr_IPNet (net.mkIPNet x (net.CIDRMask n 128))]))
    = Ok r /\
    prefixBit r q
    = if (Z.of_nat q <? n) && (Z.of_nat q <? literalPrefix raw)
      then prefixBit x q || prefixBit (ip p) q
      else prefixBit (ip p) q.
Proof.
  intros Hx H4 Hg Hn Hp Hm Hq.
  assert (Hmask : net.CIDRMask n 128 = net.CIDRMask_loop 16 n).
  { unfold net.CIDRMask.
    assert ((n <? 0) = false) as -> by (apply Z.ltb_ge; lia).
    assert ((128 <? n) = false) as -> by (apply Z.ltb_ge; lia).
    reflexivity. }
  assert (Hsix : chooseSix (chooseUnicast
                   [Addr_IPNet (net.mkIPNet x (net.CIDRMask n 128))])
                 = zip_with Z.land x (net.CIDRMask_loop 16 n)).
  { cbn [chooseUnicast net.IPNet_IP]. rewrite Hg. cbn [negb chooseSix net.IPNet_IP net.IPNet_Mask].
    rewrite H4, bool_decide_eq_true_2 by done.
    rewrite Hmask. apply Mask_16_16; [done|]. apply CIDRMask_loop_length. }
  rewrite Hsix.
  assert (Hd : length (zip_with Z.land x (net.CIDRMask_loop 16 n)) = length (mask p)).
  { rewrite length_zip_with, CIDRMask_loop_length. lia. }
  destruct (merged_prefixBit raw p _ q Hp Hd) as [Hok Hbit]; [lia|].
  eexists. split; [exact Hok|].
  rewrite Hm in Hbit.
  change (8 * (16 - 16) + q)%nat with q in Hbit.
  rewrite Hbit.
  assert (Hq8 : (q / 8 < 16)%nat) by (apply Nat.Div0.div_lt_upper_bound; lia).
  rewrite prefixBit_land by (rewrite ?CIDRMask_loop_length; lia).
  rewrite CIDRMask_loop_bit by lia.
  destruct (Z.of_nat q <? n), (Z.of_nat q <? literalPrefix raw); cbn;
    rewrite ?andb_true_r, ?andb_false_r; done.
Qed.

Lemma prefix_from_interface_suffix_from_config_witness :
  exists r,
    ApplyIPToMask exampleHost1
      (chooseSix (chooseUnicast
         [Addr_IPNet (net.mkIPNet
            [32; 1; 4; 112; 31; 14; 8; 63; 0; 0; 0; 0; 0; 0; 0; 2]
            (net.CIDRMask 64 128))]))
    = Ok r /\
    prefixBit r 127
    = if (127 <? 64) && (127 <? literalPrefix "::1234:1234:1234:1234/64")
      then prefixBit [32; 1; 4; 112; 31; 14; 8; 63; 0; 0; 0; 0; 0; 0; 0; 2] 127
           || prefixBit (ip exampleHost1) 127
      else prefixBit (ip exampleHost1) 127.
Proof.
  apply (prefix_from_interface_suffix_from_config
           [32; 1; 4; 112; 31; 14; 8; 63; 0; 0; 0; 0; 0; 0; 0; 2] 64
           "::1234:1234:1234:1234/64" exampleHost1 127).
  - reflexivity.
  - reflexivity.
  - vm_compute. reflexivity.
  - lia.
  - vm_compute. reflexivity.
  - reflexivity.
  - lia.
Defined.

(** ** Further properties: complete runs *)

(** X15.  A run of the signed updater that reaches the exchange and gets
    an answer without error ends normally, and its trace is one
    ["Updating"] line per host, in the order of the loop, followed by
    the single exchange: nothing else is logged or sent. *)
Theorem successful_run_trace
    (e : rfc2136.Env) (config : rfc2136.Config)
    (ifs : list Interface) (finals : list net.IP) (reply : option dns.Msg) :
  rfc2136.logCreate e = None ->
  rfc2136.config_load e = Loaded config ->
  rfc2136.interfaces e = inl ifs ->
  mergesTo (resolve (rfc2136.fourFrom e) (rfc2136.sixFrom e) ifs).1
           (resolve (rfc2136.fourFrom e) (rfc2136.sixFrom e) ifs).2
           (rfc2136.Hosts config) finals ->
  rfc2136.exchange e (dns.mkClient true (rfc2136.TsigSecrets config))
    (rfc2136.buildUpdate config (insertionsFor config (rfc2136.Hosts config) finals)
       (rfc2136.now_string e) (rfc2136.now_unix e))
    (rfc2136.Server config) = (reply, None) ->
  run (rfc2136.main e)
  = (hostLogs config (rfc2136.Hosts config) finals
     ++ [Exchanged (dns.mkClient true (rfc2136.TsigSecrets config))
           (rfc2136.buildUpdate config
              (insertionsFor config (rfc2136.Hosts config) finals)
              (rfc2136.now_string e) (rfc2136.now_unix e))
           (rfc2136.Server config)],
     Ok tt) /\
  length (hostLogs config (rfc2136.Hosts config) finals)
  = length (rfc2136.Hosts config).
Proof.
  intros Hlog Hcfg Hifs Hm Hanswer.
  rewrite (main_run e config ifs finals Hlog Hcfg Hifs Hm).
  rewrite Hanswer. split; [reflexivity|].
  unfold hostLogs. rewrite length_zip_with.
  pose proof (Forall2_length _ _ _ Hm). lia.
Qed.

Lemma successful_run_trace_witness :
  (run (rfc2136.main exampleEnvAccepted)).2 = Ok tt.
Proof.
  destruct (successful_run_trace exampleEnvAccepted exampleConfig
              exampleInterfaces exampleFinals None) as [H _].
  - reflexivity.
  - reflexivity.
  - reflexivity.
  - repeat constructor.
  - reflexivity.
  - rewrite H. reflexivity.
Defined.




